(** * DiscoveryProvider: request retry and endpoint reselection

    A shallow embedding of the request path of
    [@audius/libs/src/services/discoveryProvider/DiscoveryProvider.ts]:
    [_getBlocksBehind], [_getPlaysSlotsBehind],
    [getHealthyDiscoveryProviderEndpoint], [_createDiscProvRequest],
    [_performRequestWithMonitoring] and [_makeRequest].

    The class is stateful ([this.request404Count],
    [this.discoveryProviderEndpoint], the selector it owns) and talks to
    the network.  Instance fields become a record that is passed
    explicitly; what the outside world answers (the endpoint a probe round
    picks, the outcome of an HTTP call) is read from a script with one
    entry per invocation of [_makeRequest]. *)

From stdpp Require Import gmap strings list.

Local Open Scope Z_scope.

(** ** JavaScript values used by the health check *)

Module Js.

(** A JavaScript number as far as block and slot counters need it: an
    integer, or [NaN]. *)
Inductive number :=
| Fin (z : Z)
| NaN.

(** A field of a parsed JSON body, read by destructuring.  [Missing] is
    what destructuring yields for an absent key ([undefined]);
    [NonNumeric] stands for any value whose numeric reading is [NaN]
    (a non-numeric string, an object). *)
Inductive field :=
| Missing
| Null
| Number (z : Z)
| NonNumeric.

(** ToNumber, as applied by the binary [-] operator. *)
Definition toNumber (f : field) : number :=
  match f with
  | Missing => NaN
  | Null => Fin 0
  | Number z => Fin z
  | NonNumeric => NaN
  end.

(** [a - b] *)
Definition sub (a b : number) : number :=
  match a, b with
  | Fin x, Fin y => Fin (x - y)
  | _, _ => NaN
  end.

(** [a > b]: false as soon as one side is [NaN]. *)
Definition gt (a b : number) : bool :=
  match a, b with
  | Fin x, Fin y => bool_decide (y < x)
  | _, _ => false
  end.

(** A value of type [number | null]; [None] is [null]. *)
Definition nullable := option number.

(** Truthiness of a [number | null]: [null], [0] and [NaN] are falsy. *)
Definition truthy (v : nullable) : bool :=
  match v with
  | Some (Fin z) => bool_decide (z ≠ 0)
  | Some NaN => false
  | None => false
  end.

(** Truthiness of a [string | undefined]: [undefined] and the empty
    string are falsy. *)
Definition truthy_string (s : option string) : bool :=
  match s with
  | Some s => bool_decide (s ≠ "")
  | None => false
  end.

(** The configured slot threshold, typed [number | undefined] and
    also assigned [null] by callers. *)
Inductive threshold :=
| TUndefined
| TNull
| TNumber (z : Z).

(** [!t] *)
Definition not_threshold (t : threshold) : bool :=
  match t with
  | TUndefined => true
  | TNull => true
  | TNumber z => bool_decide (z = 0)
  end.

End Js.

(** ** Responses *)

(** The object [Utils.parseDataFromResponse] hands back: the health
    fields read by the staleness checks and the payload [data]. *)
Record ResponseObj := {
  latest_indexed_block : Js.field;
  latest_chain_block : Js.field;
  latest_indexed_slot_plays : Js.field;
  latest_chain_slot_plays : Js.field;
  data : string
}.

(** [parsedResponse]: an object, or [null]/[undefined] ([None]). *)
Definition ParsedResponse := option ResponseObj.

(** ** The endpoint selector *)

Module Selector.

(** Modelled from the spec: the class [DiscoveryProviderSelection]
    (imported from [./DiscoveryProviderSelection]) is not part of the
    sources at hand.  Its selection state holds the cached choice and
    the set of endpoints marked unhealthy. *)
Record t := {
  currentEndpoint : option string;
  unhealthySet : gset (option string)
}.

(** Modelled from the spec: the selector before any selection, empty
    cache and nothing marked unhealthy. *)
Definition initial : t :=
  {| currentEndpoint := None; unhealthySet := ∅ |}.

(** Modelled from the spec: [addUnhealthy(endpoint)] adds to the
    unhealthy set and never removes. *)
Definition addUnhealthy (endpoint : option string) (s : t) : t :=
  {| currentEndpoint := currentEndpoint s;
     unhealthySet := {[ endpoint ]} ∪ unhealthySet s |}.

(** Modelled from the spec: [clearCached()] drops the cached choice and
    leaves the unhealthy set alone. *)
Definition clearCached (s : t) : t :=
  {| currentEndpoint := None; unhealthySet := unhealthySet s |}.

(** Modelled from the spec: [select()] returns the cached endpoint while
    it is valid (cached and not marked unhealthy); otherwise it runs a
    probe round and caches what that round picks.  [probe] is the
    outcome of the probe round, [None] when no candidate is reachable.
    The cache timeout is not modelled: every use below follows a
    [clearCached()]. *)
Definition select (probe : option string) (s : t) : option string * t :=
  match currentEndpoint s with
  | Some e =>
      if decide (Some e ∈ unhealthySet s)
      then (probe, {| currentEndpoint := probe; unhealthySet := unhealthySet s |})
      else (Some e, s)
  | None => (probe, {| currentEndpoint := probe; unhealthySet := unhealthySet s |})
  end.

End Selector.

(** ** Observable calls *)

(** What an instance does, in the order it happens: the calls on the
    selector, the requests it issues and the not-found answers it counts.
    A request is recorded with the endpoint it goes to and the value the
    local [attemptedRetries] has when it is issued; a not-found answer
    with the value of [request404Count] right after the increment. *)
Inductive Event :=
| EvAddUnhealthy (endpoint : option string)
| EvClearCached
| EvSelect (chosen : option string)
| EvRequest (endpoint : option string) (attemptedRetries : Z)
| EvNotFound (request404Count : Z).

(** ** Instance state *)

(** [this.ethContracts], reduced to the flag the request path reads. *)
Record EthContracts := {
  isInRegressedMode : bool
}.

(** The fields of a [DiscoveryProvider] instance that the request path
    reads or writes.  [currentUserId] is
    [this.userStateManager.getCurrentUserId()]; [calls] is the record of
    events so far. *)
Record DiscoveryProvider := {
  ethContracts : option EthContracts;
  unhealthyBlockDiff : Z;
  serviceSelector : Selector.t;
  selectionRequestTimeout : Z;
  selectionRequestRetries : Z;
  unhealthySlotDiffPlays : Js.threshold;
  request404Count : Z;
  maxRequestsForTrue404 : Z;
  discoveryProviderEndpoint : option string;
  currentUserId : option string;
  calls : list Event
}.

Definition set_serviceSelector (s : Selector.t) (this : DiscoveryProvider) :=
  {| ethContracts := ethContracts this;
     unhealthyBlockDiff := unhealthyBlockDiff this;
     serviceSelector := s;
     selectionRequestTimeout := selectionRequestTimeout this;
     selectionRequestRetries := selectionRequestRetries this;
     unhealthySlotDiffPlays := unhealthySlotDiffPlays this;
     request404Count := request404Count this;
     maxRequestsForTrue404 := maxRequestsForTrue404 this;
     discoveryProviderEndpoint := discoveryProviderEndpoint this;
     currentUserId := currentUserId this;
     calls := calls this |}.

Definition set_request404Count (n : Z) (this : DiscoveryProvider) :=
  {| ethContracts := ethContracts this;
     unhealthyBlockDiff := unhealthyBlockDiff this;
     serviceSelector := serviceSelector this;
     selectionRequestTimeout := selectionRequestTimeout this;
     selectionRequestRetries := selectionRequestRetries this;
     unhealthySlotDiffPlays := unhealthySlotDiffPlays this;
     request404Count := n;
     maxRequestsForTrue404 := maxRequestsForTrue404 this;
     discoveryProviderEndpoint := discoveryProviderEndpoint this;
     currentUserId := currentUserId this;
     calls := calls this |}.

Definition set_discoveryProviderEndpoint (e : option string) (this : DiscoveryProvider) :=
  {| ethContracts := ethContracts this;
     unhealthyBlockDiff := unhealthyBlockDiff this;
     serviceSelector := serviceSelector this;
     selectionRequestTimeout := selectionRequestTimeout this;
     selectionRequestRetries := selectionRequestRetries this;
     unhealthySlotDiffPlays := unhealthySlotDiffPlays this;
     request404Count := request404Count this;
     maxRequestsForTrue404 := maxRequestsForTrue404 this;
     discoveryProviderEndpoint := e;
     currentUserId := currentUserId this;
     calls := calls this |}.

Definition record_call (ev : Event) (this : DiscoveryProvider) :=
  {| ethContracts := ethContracts this;
     unhealthyBlockDiff := unhealthyBlockDiff this;
     serviceSelector := serviceSelector this;
     selectionRequestTimeout := selectionRequestTimeout this;
     selectionRequestRetries := selectionRequestRetries this;
     unhealthySlotDiffPlays := unhealthySlotDiffPlays this;
     request404Count := request404Count this;
     maxRequestsForTrue404 := maxRequestsForTrue404 this;
     discoveryProviderEndpoint := discoveryProviderEndpoint this;
     currentUserId := currentUserId this;
     calls := calls this ++ [ev] |}.

Definition MAX_MAKE_REQUEST_RETRY_COUNT : Z := 5.
Definition MAX_MAKE_REQUEST_RETRIES_WITH_404 : Z := 2.

Section Constructor.

(** The two constants imported from [./constants], a file that is not
    part of the sources at hand. *)
Variable DEFAULT_UNHEALTHY_BLOCK_DIFF : Z.
Variable REQUEST_TIMEOUT_MS : Z.

(** [a ?? b] *)
Definition nullish {A} (a : option A) (b : A) : A :=
  match a with
  | Some x => x
  | None => b
  end.

(** The constructor, for the parameters the request path depends on.
    The endpoint is still unset and the counters start from zero. *)
Definition constructor
    (ethContracts : option EthContracts)
    (currentUserId : option string)
    (selectionRequestTimeout selectionRequestRetries : option Z)
    (unhealthySlotDiffPlays : Js.threshold)
    (unhealthyBlockDiff : option Z) : DiscoveryProvider :=
  {| ethContracts := ethContracts;
     unhealthyBlockDiff := nullish unhealthyBlockDiff DEFAULT_UNHEALTHY_BLOCK_DIFF;
     serviceSelector := Selector.initial;
     selectionRequestTimeout := nullish selectionRequestTimeout REQUEST_TIMEOUT_MS;
     selectionRequestRetries := nullish selectionRequestRetries MAX_MAKE_REQUEST_RETRY_COUNT;
     unhealthySlotDiffPlays := unhealthySlotDiffPlays;
     request404Count := 0;
     maxRequestsForTrue404 := MAX_MAKE_REQUEST_RETRIES_WITH_404;
     discoveryProviderEndpoint := None;
     currentUserId := currentUserId;
     calls := [] |}.

End Constructor.

(** [setEndpoint(endpoint)] *)
Definition setEndpoint (endpoint : option string) (this : DiscoveryProvider) :=
  set_discoveryProviderEndpoint endpoint this.

(** ** Staleness measures *)

(** [_getBlocksBehind(parsedResponse)].  Destructuring [null] or
    [undefined] throws, and the [catch] answers with the threshold;
    destructuring an object never throws, absent keys read as
    [undefined]. *)
Definition _getBlocksBehind (this : DiscoveryProvider)
    (parsedResponse : ParsedResponse) : Js.nullable :=
  match parsedResponse with
  | None => Some (Js.Fin (unhealthyBlockDiff this))
  | Some r =>
      let indexedBlock := latest_indexed_block r in
      let chainBlock := latest_chain_block r in
      let blockDiff := Js.sub (Js.toNumber chainBlock) (Js.toNumber indexedBlock) in
      if Js.gt blockDiff (Js.Fin (unhealthyBlockDiff this))
      then Some blockDiff
      else None
  end.

(** [_getPlaysSlotsBehind(parsedResponse)] *)
Definition _getPlaysSlotsBehind (this : DiscoveryProvider)
    (parsedResponse : ParsedResponse) : Js.nullable :=
  if Js.not_threshold (unhealthySlotDiffPlays this) then None
  else
    match unhealthySlotDiffPlays this, parsedResponse with
    | Js.TNumber t, None => Some (Js.Fin t)
    | Js.TNumber t, Some r =>
        let indexedSlotPlays := latest_indexed_slot_plays r in
        let chainSlotPlays := latest_chain_slot_plays r in
        let slotDiff := Js.sub (Js.toNumber chainSlotPlays) (Js.toNumber indexedSlotPlays) in
        if Js.gt slotDiff (Js.Fin t) then Some slotDiff else None
    | _, _ => None
    end.

(** ** Request descriptors *)

Module Request.

(** A query parameter value.  The declared type is
    [Record<string, string>], but callers leave optional parameters
    [undefined] or [null] and the builder tests for both. *)
Inductive value :=
| Str (s : string)
| Undefined
| Null.

(** [v === undefined || v === null] *)
Definition is_nullish (v : value) : bool :=
  match v with
  | Str _ => false
  | Undefined => true
  | Null => true
  end.

(** [RequestParams] *)
Record RequestParams := {
  queryParams : option (gmap string value);
  endpoint : string;
  timeout : option Z;
  method : option string;
  urlParams : option string;
  headers : option (gmap string string);
  data : option string
}.

End Request.

Module Axios.

(** The arguments handed to [urlJoin], kept as they are: the library
    [proper-url-join] is external. *)
Record Url := {
  base : option string;
  path : string;
  params : option string;
  query : option (gmap string Request.value)
}.

(** [AxiosRequestConfig], the fields the builder sets. *)
Record RequestConfig := {
  url : Url;
  headers : gmap string string;
  method : string;
  timeout : Z;
  data : option string
}.

(** What one HTTP exchange comes to.  [Responds p]: [axios] resolved and
    [Utils.parseDataFromResponse] produced [p].  [Fails status message]:
    the exchange threw; [status] is [error.response?.status] and
    [message] the [message] property of the value
    [error.response?.data ?? error] that is thrown on. *)
Inductive Outcome :=
| Responds (parsedResponse : ParsedResponse)
| Fails (status : option Z) (message : option string).

End Axios.

(** The [forEach] over [Object.entries(requestObj.queryParams)]: each
    entry whose value is [undefined] or [null] is deleted from the
    object itself. *)
Definition sanitize (queryParams : gmap string Request.value) : gmap string Request.value :=
  map_fold
    (fun k v obj => if Request.is_nullish v then delete k obj else obj)
    queryParams queryParams.

(** [_createDiscProvRequest(requestObj, discoveryProviderEndpoint)].
    The request object is passed by reference and written to, so the
    function returns it next to the axios request it builds.  When the
    caller supplies [headers], the local [headers] is that very object
    and the [X-User-ID] assignment lands in it. *)
Definition _createDiscProvRequest (this : DiscoveryProvider)
    (requestObj : Request.RequestParams) (discoveryProviderEndpoint : option string)
    : Axios.RequestConfig * Request.RequestParams :=
  let queryParams := sanitize <$> Request.queryParams requestObj in
  let requestUrl :=
    {| Axios.base := discoveryProviderEndpoint;
       Axios.path := Request.endpoint requestObj;
       Axios.params := Request.urlParams requestObj;
       Axios.query := queryParams |} in
  let set_user_id (h : gmap string string) :=
    match currentUserId this with
    | Some uid => if bool_decide (uid ≠ "") then <["X-User-ID" := uid]> h else h
    | None => h
    end in
  let headers := set_user_id (nullish (Request.headers requestObj) ∅) in
  let timeout := nullish (Request.timeout requestObj) (selectionRequestTimeout this) in
  let axiosRequest :=
    {| Axios.url := requestUrl;
       Axios.headers := headers;
       Axios.method := nullish (Request.method requestObj) "get";
       Axios.timeout := timeout;
       Axios.data :=
         if bool_decide (Request.method requestObj = Some "post")
         then Request.data requestObj else None |} in
  (axiosRequest,
   {| Request.queryParams := queryParams;
      Request.endpoint := Request.endpoint requestObj;
      Request.timeout := Request.timeout requestObj;
      Request.method := Request.method requestObj;
      Request.urlParams := Request.urlParams requestObj;
      Request.headers := set_user_id <$> Request.headers requestObj;
      Request.data := Request.data requestObj |}).

(** ** Performing one request *)

(** What the world answers during one invocation of [_makeRequest]:
    [probe] is the endpoint a fresh selection round would pick and
    [outcome] how the HTTP exchange ends. *)
Record World := {
  probe : option string;
  outcome : Axios.Outcome
}.

(** How a call ends: with a value, or with a thrown error of the given
    message. *)
Inductive Completion (A : Type) :=
| Normal (a : A)
| Throw (message : option string).
Arguments Normal {A} a.
Arguments Throw {A} message.

(** [_performRequestWithMonitoring(requestObj, discoveryProviderEndpoint)].
    The monitoring callback runs inside its own [try]/[catch] and cannot
    change the result; it is left out. *)
Definition _performRequestWithMonitoring (this : DiscoveryProvider)
    (requestObj : Request.RequestParams) (discoveryProviderEndpoint : option string)
    (outcome : Axios.Outcome)
    : Completion ParsedResponse * Request.RequestParams :=
  let '(axiosRequest, requestObj) :=
    _createDiscProvRequest this requestObj discoveryProviderEndpoint in
  match outcome with
  | Axios.Responds parsedResponse => (Normal parsedResponse, requestObj)
  | Axios.Fails status message =>
      if bool_decide (status = Some 404)
      then (Throw (Some "404"), requestObj)
      else (Throw message, requestObj)
  end.

(** ** Choosing the endpoint *)

Definition ALL_UNHEALTHY : string :=
  "All Discovery Providers are unhealthy and unavailable.".

(** [getHealthyDiscoveryProviderEndpoint(attemptedRetries)] *)
Definition getHealthyDiscoveryProviderEndpoint (this : DiscoveryProvider)
    (probe : option string) (attemptedRetries : Z)
    : Completion string * DiscoveryProvider :=
  let endpoint := discoveryProviderEndpoint this in
  let '(endpoint, this) :=
    if bool_decide (selectionRequestRetries this < attemptedRetries) then
      let this :=
        record_call (EvAddUnhealthy endpoint)
          (set_serviceSelector (Selector.addUnhealthy endpoint (serviceSelector this)) this) in
      let this :=
        record_call EvClearCached
          (set_serviceSelector (Selector.clearCached (serviceSelector this)) this) in
      let '(endpoint, selector) := Selector.select probe (serviceSelector this) in
      (endpoint, record_call (EvSelect endpoint) (set_serviceSelector selector this))
    else (endpoint, this) in
  match endpoint with
  | Some e =>
      if bool_decide (e ≠ "") then (Normal e, this)
      else (Throw (Some ALL_UNHEALTHY), this)
  | None => (Throw (Some ALL_UNHEALTHY), this)
  end.

(** ** The retry loop *)

(** What a call of [_makeRequest] resolves to: the payload, [null],
    [undefined], or a rejection. *)
Inductive Result :=
| Data (d : string)
| ReturnsNull
| ReturnsUndefined
| Throws (message : option string).

(** One invocation of [_makeRequest] either returns or ends in a
    recursive call [_makeRequest(requestObj, retry, n)]. *)
Inductive Step :=
| Return (r : Result)
| Recurse (attemptedRetries : Z).

(** [this.ethContracts && !this.ethContracts.isInRegressedMode()] *)
Definition notInRegressedMode (this : DiscoveryProvider) : bool :=
  match ethContracts this with
  | Some c => negb (isInRegressedMode c)
  | None => false
  end.

(** The first [try] block of [_makeRequest]: ask for a healthy endpoint
    and, when it is not the one in use, switch to it and restart the
    attempt count.  The result is the value of the local
    [attemptedRetries] afterwards. *)
Definition _makeRequest_select (this : DiscoveryProvider) (probe : option string)
    (attemptedRetries : Z) : Completion Z * DiscoveryProvider :=
  match getHealthyDiscoveryProviderEndpoint this probe attemptedRetries with
  | (Throw message, this) => (Throw message, this)
  | (Normal newDiscProvEndpoint, this) =>
      if bool_decide (discoveryProviderEndpoint this ≠ Some newDiscProvEndpoint)
      then (Normal 0, set_discoveryProviderEndpoint (Some newDiscProvEndpoint) this)
      else (Normal attemptedRetries, this)
  end.

(** The [catch] block around the request: what happens once the request
    has thrown a value whose [message] property is [message]. *)
Definition _makeRequest_catch (this : DiscoveryProvider) (retry : bool)
    (attemptedRetries : Z) (message : option string) : Step * DiscoveryProvider :=
  if retry then
    if bool_decide (message = Some "404") then
      let this := set_request404Count (request404Count this + 1) this in
      let this := record_call (EvNotFound (request404Count this)) this in
      if bool_decide (request404Count this < maxRequestsForTrue404 this)
      then (Recurse (selectionRequestRetries this + 1), this)
      else (Return ReturnsNull, set_request404Count 0 this)
    else (Recurse (attemptedRetries + 1), this)
  else (Return ReturnsNull, this).

(** The validation of a response that did arrive. *)
Definition _makeRequest_validate (this : DiscoveryProvider) (retry : bool)
    (attemptedRetries : Z) (parsedResponse : ParsedResponse) : Step * DiscoveryProvider :=
  let blockDiff := _getBlocksBehind this parsedResponse in
  if notInRegressedMode this && Js.truthy blockDiff then
    if retry then (Recurse (attemptedRetries + 1), this)
    else (Return ReturnsNull, this)
  else
    let playsSlotDiff := _getPlaysSlotsBehind this parsedResponse in
    if notInRegressedMode this && Js.truthy playsSlotDiff then
      if retry then (Recurse (attemptedRetries + 1), this)
      else (Return ReturnsNull, this)
    else
      let this := set_request404Count 0 this in
      match parsedResponse with
      | Some r => (Return (Data (data r)), this)
      | None => (Return (Throws (Some "TypeError")), this)
      end.

(** The body of [_makeRequest(requestObj, retry, attemptedRetries)], up
    to its [return] or its recursive call: the three blocks above in the
    order of the source. *)
Definition _makeRequest_body (w : World) (this : DiscoveryProvider)
    (requestObj : Request.RequestParams) (retry : bool) (attemptedRetries : Z)
    : Step * DiscoveryProvider * Request.RequestParams :=
  match _makeRequest_select this (probe w) attemptedRetries with
  | (Throw _, this) => (Return ReturnsUndefined, this, requestObj)
  | (Normal attemptedRetries, this) =>
      let this :=
        record_call (EvRequest (discoveryProviderEndpoint this) attemptedRetries) this in
      match _performRequestWithMonitoring this requestObj
              (discoveryProviderEndpoint this) (outcome w) with
      | (Throw message, requestObj) =>
          let '(step, this) := _makeRequest_catch this retry attemptedRetries message in
          (step, this, requestObj)
      | (Normal parsedResponse, requestObj) =>
          let '(step, this) := _makeRequest_validate this retry attemptedRetries parsedResponse in
          (step, this, requestObj)
      end
  end.

(** [_makeRequest(requestObj, retry, attemptedRetries)].  The script
    holds what the world answers to each invocation in turn; [None]
    means the script ended while the call was still retrying. *)
Fixpoint _makeRequest (script : list World) (this : DiscoveryProvider)
    (requestObj : Request.RequestParams) (retry : bool) (attemptedRetries : Z)
    : option (Result * DiscoveryProvider * Request.RequestParams) :=
  match script with
  | [] => None
  | w :: script =>
      match _makeRequest_body w this requestObj retry attemptedRetries with
      | (Return r, this, requestObj) => Some (r, this, requestObj)
      | (Recurse n, this, requestObj) => _makeRequest script this requestObj retry n
      end
  end.

(** [this._makeRequest(req)], as the high-level methods call it: [retry]
    and [attemptedRetries] take their defaults. *)
Definition request (script : list World) (this : DiscoveryProvider)
    (requestObj : Request.RequestParams) :=
  _makeRequest script this requestObj true 0.

(** The [message] of the value [_performRequestWithMonitoring] throws for
    a failed exchange: the sentinel for status 404, the message of the
    error otherwise. *)
Definition thrown_message (status : option Z) (message : option string) : option string :=
  if bool_decide (status = Some 404) then Some "404" else message.

Arguments _createDiscProvRequest : simpl never.
Arguments _makeRequest_validate : simpl never.
Arguments _makeRequest_catch : simpl never.
Arguments _makeRequest_select : simpl never.
Arguments getHealthyDiscoveryProviderEndpoint : simpl never.

(** ** Reading the record of events *)

Definition is_request (ev : Event) : bool :=
  match ev with EvRequest _ _ => true | _ => false end.

Definition is_select (ev : Event) : bool :=
  match ev with EvSelect _ => true | _ => false end.

Definition is_not_found (ev : Event) : bool :=
  match ev with EvNotFound _ => true | _ => false end.

(** How many events of one kind a record holds. *)
Definition count_events (kind : Event -> bool) (evs : list Event) : Z :=
  Z.of_nat (length (filter (fun ev => kind ev = true) evs)).

(** The counter never went past [bound] in this record. *)
Definition not_found_within (bound : Z) (evs : list Event) : Prop :=
  Forall (fun ev => match ev with EvNotFound c => c <= bound | _ => True end) evs.

(** The world answers this invocation with the distinguished not-found
    error. *)
Definition answers_not_found (w : World) : Prop :=
  match outcome w with
  | Axios.Fails status message => thrown_message status message = Some "404"
  | Axios.Responds _ => False
  end.

(** A fresh probe round during this invocation would find an endpoint. *)
Definition reselectable (w : World) : Prop :=
  Js.truthy_string (probe w) = true.

(** ** Callers of the retry loop *)

(** [getTracksByHandleAndSlug(handle, slug)]: the one high-level method
    that calls [_makeRequest] with retries disabled.  [requestObj] is the
    descriptor [Requests.getTracksByHandleAndSlug(handle, slug)] builds;
    the module [./requests] is not part of the sources at hand. *)
Definition getTracksByHandleAndSlug (script : list World) (this : DiscoveryProvider)
    (requestObj : Request.RequestParams) :=
  _makeRequest script this requestObj false 0.

(** The world answers this invocation with something the loop retries
    on the same footing: a failure other than not-found, or a response
    that validation rejects as stale. *)
Definition answers_unusable (this : DiscoveryProvider) (w : World) : Prop :=
  match outcome w with
  | Axios.Fails status message => thrown_message status message ≠ Some "404"
  | Axios.Responds parsedResponse =>
      notInRegressedMode this
      && (Js.truthy (_getBlocksBehind this parsedResponse)
          || Js.truthy (_getPlaysSlotsBehind this parsedResponse)) = true
  end.

(** The world answers this invocation with a response object that
    passes validation. *)
Definition answers_usable (this : DiscoveryProvider) (w : World) (r : ResponseObj) : Prop :=
  outcome w = Axios.Responds (Some r) /\
  notInRegressedMode this
  && (Js.truthy (_getBlocksBehind this (Some r))
      || Js.truthy (_getPlaysSlotsBehind this (Some r))) = false.

(** Several events recorded in a row. *)
Definition record_calls (evs : list Event) (this : DiscoveryProvider) : DiscoveryProvider :=
  foldl (fun this ev => record_call ev this) this evs.

(** The requests of [n] consecutive attempts on one endpoint, counted
    from [attemptedRetries]. *)
Definition attempts_on (endpoint : string) (attemptedRetries : Z) (n : nat) : list Event :=
  (fun i => EvRequest (Some endpoint) (attemptedRetries + Z.of_nat i)) <$> seq 0 n.

(** ** Concrete instances *)

Module Examples.

(** An instance as the constructor leaves it, pointed at a first
    endpoint: block threshold 15, no slot threshold, counters at zero,
    not in regressed mode. *)
Definition fresh : DiscoveryProvider :=
  setEndpoint (Some "https://dn1.example")
    (constructor 15 3000 (Some {| isInRegressedMode := false |})
       None None None Js.TUndefined None).

(** An instance with a slot threshold of 10 as well, while the fleet is
    in regressed mode. *)
Definition regressed : DiscoveryProvider :=
  setEndpoint (Some "https://dn1.example")
    (constructor 15 3000 (Some {| isInRegressedMode := true |})
       None None None (Js.TNumber 10) None).

(** Slot threshold configured as [null] and as [0]. *)
Definition slots_null : DiscoveryProvider :=
  setEndpoint (Some "https://dn1.example")
    (constructor 15 3000 (Some {| isInRegressedMode := false |})
       None None None Js.TNull None).

Definition slots_zero : DiscoveryProvider :=
  setEndpoint (Some "https://dn1.example")
    (constructor 15 3000 (Some {| isInRegressedMode := false |})
       None None None (Js.TNumber 0) None).

(** A plain descriptor, and one that leaves an optional query
    parameter undefined. *)
Definition get_users : Request.RequestParams :=
  {| Request.queryParams := Some {[ "limit" := Request.Str "10" ]};
     Request.endpoint := "users";
     Request.timeout := None;
     Request.method := None;
     Request.urlParams := None;
     Request.headers := None;
     Request.data := None |}.

Definition get_users_optional : Request.RequestParams :=
  {| Request.queryParams :=
       Some (<[ "handle" := Request.Undefined ]> {[ "limit" := Request.Str "10" ]});
     Request.endpoint := "users";
     Request.timeout := None;
     Request.method := None;
     Request.urlParams := None;
     Request.headers := None;
     Request.data := None |}.

(** A response that is 500 blocks and 1000 slots behind. *)
Definition lagging : ResponseObj :=
  {| latest_indexed_block := Js.Number 1000;
     latest_chain_block := Js.Number 1500;
     latest_indexed_slot_plays := Js.Number 2000;
     latest_chain_slot_plays := Js.Number 3000;
     data := "payload" |}.

(** A response whose body carries no [latest_chain_block]. *)
Definition no_chain_block : ResponseObj :=
  {| latest_indexed_block := Js.Number 1000;
     latest_chain_block := Js.Missing;
     latest_indexed_slot_plays := Js.Number 2000;
     latest_chain_slot_plays := Js.Number 2000;
     data := "payload" |}.

(** The world answers with a response, or with a 404 while a fresh
    probe round would pick [next]. *)
Definition answers (r : ResponseObj) : World :=
  {| probe := None; outcome := Axios.Responds (Some r) |}.

Definition not_found (next : option string) : World :=
  {| probe := next; outcome := Axios.Fails (Some 404) None |}.

End Examples.

(** ** Token verification and the OAuth message handler *)

(** [UserProfile], as exported by [DiscoveryProvider.ts]. *)
Record UserProfile := {
  userId : Z;
  email : string;
  name : string;
  handle : string;
  verified : bool;
  imageURL : option string;
  sub : Z;
  iat : string
}.

Section VerifyToken.

(** [Requests.verifyToken(token)], from the module [./requests] that is
    not part of the sources at hand. *)
Variable verifyToken_request : string -> Request.RequestParams.

(** The first element [res[0]] of a payload, [None] when it is [null] or
    [undefined]; payloads are kept as text here. *)
Variable first_profile : string -> option UserProfile.

(** [DiscoveryProvider.verifyToken(token)]: [Normal None] is the answer
    [false]. *)
Definition verifyToken (script : list World) (this : DiscoveryProvider) (token : string)
    : option (Completion (option UserProfile) * DiscoveryProvider) :=
  let req := verifyToken_request token in
  match _makeRequest script this req true 0 with
  | None => None
  | Some (Data res, this, _) => Some (Normal (first_profile res), this)
  | Some (ReturnsNull, this, _) => Some (Normal None, this)
  | Some (ReturnsUndefined, this, _) => Some (Normal None, this)
  | Some (Throws message, this, _) => Some (Throw message, this)
  end.

(** A browser window: its identity and whether it has been closed. *)
Record Window := {
  window_id : nat;
  closed : bool
}.

(** The fields of an [Oauth] instance.  The two callbacks are kept as
    "set or not"; what they are called with is recorded as effects. *)
Record Oauth := {
  discoveryProvider : DiscoveryProvider;
  appName : option string;
  activePopupWindow : option Window;
  popupCheckInterval : option nat;
  loginSuccessCallback : bool;
  loginErrorCallback : bool
}.

(** What the handler does to the outside, in order. *)
Inductive Effect :=
| ClearInterval (timer : nat)
| CloseWindow (window : nat)
| LoginError (errorMessage : string)
| ConsoleError (errorMessage : string)
| LoginSuccess (profile : UserProfile).

(** [event.data] of a message: the two properties the handler reads. *)
Record MessageData := {
  state : option string;
  token : option string
}.

(** A [MessageEvent]: [source] is the identity of the sending window and
    [message_data] is [None] for a [null] or [undefined] [data]. *)
Record MessageEvent := {
  origin : string;
  source : option nat;
  message_data : option MessageData
}.

(** [new URL(OAUTH_URL).origin] for
    [OAUTH_URL = 'https://audius.co/oauth/auth']. *)
Definition oauthOrigin : string := "https://audius.co".

(** [_surfaceError(errorMessage)] *)
Definition _surfaceError (this : Oauth) (errorMessage : string) : list Effect :=
  if loginErrorCallback this then [LoginError errorMessage]
  else [ConsoleError errorMessage].

(** [_clearPopupCheckInterval()]; a timer id of [0] is falsy. *)
Definition _clearPopupCheckInterval (this : Oauth) : list Effect :=
  match popupCheckInterval this with
  | Some timer => if bool_decide (timer ≠ 0%nat) then [ClearInterval timer] else []
  | None => []
  end.

Definition set_popup_and_provider (popup : option Window) (provider : DiscoveryProvider)
    (this : Oauth) : Oauth :=
  {| discoveryProvider := provider;
     appName := appName this;
     activePopupWindow := popup;
     popupCheckInterval := popupCheckInterval this;
     loginSuccessCallback := loginSuccessCallback this;
     loginErrorCallback := loginErrorCallback this |}.

(** [Oauth.verifyToken(token)] *)
Definition Oauth_verifyToken (script : list World) (this : Oauth) (token : string) :=
  verifyToken script (discoveryProvider this) token.

(** [_receiveMessage(event)].  [stored] is
    [window.localStorage.getItem(CSRF_TOKEN_KEY)].  The result is how the
    handler ends, the instance afterwards and the effects in order;
    [None] means the script ended while the token was being verified. *)
Definition _receiveMessage (script : list World) (this : Oauth) (event : MessageEvent)
    (stored : option string) : option (Completion unit * Oauth * list Effect) :=
  if bool_decide (origin event ≠ oauthOrigin)
     || bool_decide (source event ≠ (window_id <$> activePopupWindow this))
  then Some (Normal tt, this, [])
  else
    match message_data event with
    | None => Some (Throw (Some "TypeError"), this, [])
    | Some data =>
        match state data, token data with
        | Some state, Some token =>
            if bool_decide (state = "") || bool_decide (token = "")
            then Some (Normal tt, this, [])
            else
              let cleared := _clearPopupCheckInterval this in
              let closing :=
                match activePopupWindow this with
                | Some popup => if closed popup then [] else [CloseWindow (window_id popup)]
                | None => []
                end in
              let mismatch :=
                if bool_decide (stored ≠ Some state)
                then _surfaceError this "State mismatch." else [] in
              match Oauth_verifyToken script this token with
              | None => None
              | Some (Throw message, provider) =>
                  Some (Throw message, set_popup_and_provider None provider this,
                        cleared ++ closing ++ mismatch)
              | Some (Normal (Some decodedJwt), provider) =>
                  Some (Normal tt, set_popup_and_provider None provider this,
                        cleared ++ closing ++ mismatch
                        ++ (if loginSuccessCallback this
                            then [LoginSuccess decodedJwt] else []))
              | Some (Normal None, provider) =>
                  Some (Normal tt, set_popup_and_provider None provider this,
                        cleared ++ closing ++ mismatch
                        ++ _surfaceError this "The token was invalid.")
              end
        | _, _ => Some (Normal tt, this, [])
        end
    end.

End VerifyToken.

(** The message is one the handler acts on: it comes from the OAuth
    origin and from the popup the instance opened, and carries a
    non-empty state and token. *)
Definition accepted (this : Oauth) (event : MessageEvent) (state token : string) : Prop :=
  origin event = oauthOrigin /\
  source event = (window_id <$> activePopupWindow this) /\
  message_data event = Some {| state := Some state; token := Some token |} /\
  state ≠ "" /\ token ≠ "".

(** Every request in this record went to an endpoint that is set and
    not empty. *)
Definition requests_have_endpoint (evs : list Event) : Prop :=
  Forall (fun ev => match ev with
                    | EvRequest endpoint _ => Js.truthy_string endpoint = true
                    | _ => True
                    end) evs.

(** ** Further instances *)

Module Scenarios.

(** The world answers with a server error while a fresh probe round
    would pick [next]. *)
Definition server_error (next : option string) : World :=
  {| probe := next; outcome := Axios.Fails (Some 500) (Some "Internal Server Error") |}.

(** The world answers with a healthy response while a fresh probe round
    would pick [next]. *)
Definition healthy : ResponseObj :=
  {| latest_indexed_block := Js.Number 1495;
     latest_chain_block := Js.Number 1500;
     latest_indexed_slot_plays := Js.Number 3000;
     latest_chain_slot_plays := Js.Number 3000;
     data := "payload" |}.

Definition answers_from (next : option string) (r : ResponseObj) : World :=
  {| probe := next; outcome := Axios.Responds (Some r) |}.


(** An instance of a signed-in user. *)
Definition signed_in : DiscoveryProvider :=
  setEndpoint (Some "https://dn1.example")
    (constructor 15 3000 (Some {| isInRegressedMode := false |})
       (Some "42") None None Js.TUndefined None).

(** A descriptor that brings its own headers, an [X-User-ID] among
    them, and leaves an optional parameter undefined. *)
Definition with_headers : Request.RequestParams :=
  {| Request.queryParams :=
       Some (<[ "handle" := Request.Undefined ]> {[ "limit" := Request.Str "10" ]});
     Request.endpoint := "users";
     Request.timeout := Some 500;
     Request.method := Some "post";
     Request.urlParams := None;
     Request.headers := Some {[ "X-User-ID" := "7" ]};
     Request.data := Some "body" |}.

(** A profile, a payload reader that finds it in the payload
    ["payload"] only, and a descriptor for the verification request. *)
Definition profile : UserProfile :=
  {| userId := 42; email := "user@example.org"; name := "User"; handle := "user";
     verified := true; imageURL := None; sub := 42; iat := "1660000000" |}.

Definition first_profile (res : string) : option UserProfile :=
  if bool_decide (res = "payload") then Some profile else None.

Definition verifyToken_request (token : string) : Request.RequestParams :=
  {| Request.queryParams := Some {[ "token" := Request.Str token ]};
     Request.endpoint := "users/verify_token";
     Request.timeout := None;
     Request.method := None;
     Request.urlParams := None;
     Request.headers := None;
     Request.data := None |}.

(** An [Oauth] instance waiting for the answer of an open popup, window
    7, with both callbacks set and timer 3 running. *)
Definition waiting (provider : DiscoveryProvider) : Oauth :=
  {| discoveryProvider := provider;
     appName := Some "app";
     activePopupWindow := Some {| window_id := 7; closed := false |};
     popupCheckInterval := Some 3%nat;
     loginSuccessCallback := true;
     loginErrorCallback := true |}.

(** The message the popup sends back. *)
Definition popup_message (state token : string) : MessageEvent :=
  {| origin := oauthOrigin;
     source := Some 7%nat;
     message_data := Some {| state := Some state; token := Some token |} |}.

End Scenarios.

(** * Properties *)

(** ** Staleness measures *)

Lemma sub_nan_l (a b : Js.number) : a = Js.NaN -> Js.sub a b = Js.NaN.
Proof. intros ->. reflexivity. Qed.

Lemma sub_nan_r (a b : Js.number) : b = Js.NaN -> Js.sub a b = Js.NaN.
Proof. intros ->. destruct a; reflexivity. Qed.

(** A response object in which one of the two block fields has no numeric
    reading yields a [NaN] difference, which is not greater than any
    threshold: the measure answers [null]. *)
Lemma _getBlocksBehind_no_number (this : DiscoveryProvider) (r : ResponseObj) :
  Js.toNumber (latest_indexed_block r) = Js.NaN \/
  Js.toNumber (latest_chain_block r) = Js.NaN ->
  _getBlocksBehind this (Some r) = None.
Proof.
  intros H. unfold _getBlocksBehind.
  assert (Js.sub (Js.toNumber (latest_chain_block r))
                 (Js.toNumber (latest_indexed_block r)) = Js.NaN) as ->.
  { destruct H as [H | H]; [by apply sub_nan_r | by apply sub_nan_l]. }
  reflexivity.
Qed.

(** Only a [null] or [undefined] body reaches the [catch]. *)
Lemma _getBlocksBehind_no_body (this : DiscoveryProvider) :
  _getBlocksBehind this None = Some (Js.Fin (unhealthyBlockDiff this)).
Proof. reflexivity. Qed.

(** C3, evaluated on the code: a response without [latest_chain_block]
    is measured as not behind ([null]), and a request that receives it
    returns its payload as if the node were healthy. *)
Theorem C3_missing_block_field_reads_healthy :
  _getBlocksBehind Examples.fresh (Some Examples.no_chain_block) = None /\
  exists this' requestObj',
    request [Examples.answers Examples.no_chain_block] Examples.fresh Examples.get_users
    = Some (Data "payload", this', requestObj').
Proof.
  split; [reflexivity |].
  eexists _, _. vm_compute. reflexivity.
Qed.

(** C8: with [unhealthySlotDiffPlays] left [undefined] or set to [null],
    [_getPlaysSlotsBehind] answers [null] for every response, whatever
    its slot fields hold, and the validation in [_makeRequest] never
    rejects for slot lag: a response that passes the block check is
    returned. *)
Theorem C8_slot_check_disabled_when_unset
    (this : DiscoveryProvider) (parsedResponse : ParsedResponse) :
  unhealthySlotDiffPlays this = Js.TNull \/
  unhealthySlotDiffPlays this = Js.TUndefined ->
  _getPlaysSlotsBehind this parsedResponse = None /\
  forall (retry : bool) (attemptedRetries : Z) (r : ResponseObj),
    notInRegressedMode this && Js.truthy (_getBlocksBehind this (Some r)) = false ->
    _makeRequest_validate this retry attemptedRetries (Some r)
    = (Return (Data (data r)), set_request404Count 0 this).
Proof.
  intros H.
  assert (Hnull : forall p, _getPlaysSlotsBehind this p = None).
  { intros p. unfold _getPlaysSlotsBehind. by destruct H as [-> | ->]. }
  split; [apply Hnull |].
  intros retry attemptedRetries r Hblock.
  unfold _makeRequest_validate. rewrite Hblock, Hnull.
  by rewrite andb_false_r.
Qed.

Lemma C8_witness :
  _getPlaysSlotsBehind Examples.slots_null (Some Examples.lagging) = None /\
  forall (retry : bool) (attemptedRetries : Z) (r : ResponseObj),
    notInRegressedMode Examples.slots_null
      && Js.truthy (_getBlocksBehind Examples.slots_null (Some r)) = false ->
    _makeRequest_validate Examples.slots_null retry attemptedRetries (Some r)
    = (Return (Data (data r)), set_request404Count 0 Examples.slots_null).
Proof.
  apply (C8_slot_check_disabled_when_unset Examples.slots_null (Some Examples.lagging)).
  left. reflexivity.
Defined.

(** C10: with [unhealthySlotDiffPlays] set to the number [0],
    [_getPlaysSlotsBehind] answers [null] for every response as well,
    also when the slot lag is positive: [!0] is true and the guard
    returns before the lag is computed. *)
Theorem C10_zero_slot_threshold_disables_check
    (this : DiscoveryProvider) (parsedResponse : ParsedResponse) :
  unhealthySlotDiffPlays this = Js.TNumber 0 ->
  _getPlaysSlotsBehind this parsedResponse = None.
Proof.
  intros H. unfold _getPlaysSlotsBehind. rewrite H. reflexivity.
Qed.

Lemma C10_witness :
  Js.sub (Js.toNumber (latest_chain_slot_plays Examples.lagging))
         (Js.toNumber (latest_indexed_slot_plays Examples.lagging)) = Js.Fin 1000 /\
  _getPlaysSlotsBehind Examples.slots_zero (Some Examples.lagging) = None.
Proof.
  split; [reflexivity |].
  apply (C10_zero_slot_threshold_disables_check Examples.slots_zero (Some Examples.lagging)).
  reflexivity.
Defined.

(** A non-zero slot threshold does reject the same response. *)
Example _getPlaysSlotsBehind_rejects :
  _getPlaysSlotsBehind
    (setEndpoint None (constructor 15 3000 None None None None (Js.TNumber 1) None))
    (Some Examples.lagging) = Some (Js.Fin 1000).
Proof. reflexivity. Qed.

(** ** Choosing the endpoint *)

(** After [clearCached()] the selector has nothing cached, so [select()]
    hands back what the probe round picks. *)
Lemma select_after_clearCached (probe : option string) (s : Selector.t) :
  Selector.select probe (Selector.clearCached s)
  = (probe, {| Selector.currentEndpoint := probe;
               Selector.unhealthySet := Selector.unhealthySet s |}).
Proof. reflexivity. Qed.

(** The endpoint field is not written by
    [getHealthyDiscoveryProviderEndpoint], nor are the two counters'
    configuration and the 404 count. *)
Lemma getHealthy_frame (this this' : DiscoveryProvider) (probe : option string)
    (attemptedRetries : Z) (result : Completion string) :
  getHealthyDiscoveryProviderEndpoint this probe attemptedRetries = (result, this') ->
  discoveryProviderEndpoint this' = discoveryProviderEndpoint this /\
  request404Count this' = request404Count this /\
  maxRequestsForTrue404 this' = maxRequestsForTrue404 this /\
  selectionRequestRetries this' = selectionRequestRetries this /\
  ethContracts this' = ethContracts this /\
  unhealthyBlockDiff this' = unhealthyBlockDiff this /\
  unhealthySlotDiffPlays this' = unhealthySlotDiffPlays this.
Proof.
  unfold getHealthyDiscoveryProviderEndpoint.
  case_bool_decide; simpl.
  - destruct probe as [e |]; [case_bool_decide |];
      intros [= <- <-]; repeat split.
  - destruct (discoveryProviderEndpoint this) as [e |] eqn:He; [case_bool_decide |];
      intros [= <- <-]; repeat split; done.
Qed.

(** C5: when [attemptedRetries] exceeds [selectionRequestRetries], the
    current endpoint is added to the selector's unhealthy set, the cache
    is cleared and then [select()] runs, in that order, so that the
    answer is the one of a fresh probe round; at or below the threshold
    the instance (selector included) is left as it was and the stored
    endpoint is the answer.  In both cases an answer that is [undefined]
    or empty is turned into the thrown error. *)
Theorem C5_reselect_only_past_retry_budget
    (this this' : DiscoveryProvider) (probe : option string)
    (attemptedRetries : Z) (result : Completion string) :
  getHealthyDiscoveryProviderEndpoint this probe attemptedRetries = (result, this') ->
  let endpoint := discoveryProviderEndpoint this in
  (selectionRequestRetries this < attemptedRetries ->
     endpoint ∈ Selector.unhealthySet (serviceSelector this') /\
     Selector.currentEndpoint (serviceSelector this') = probe /\
     calls this' = calls this ++ [EvAddUnhealthy endpoint; EvClearCached; EvSelect probe] /\
     (forall e, probe = Some e -> e ≠ "" -> result = Normal e) /\
     (Js.truthy_string probe = false -> result = Throw (Some ALL_UNHEALTHY)))
  /\
  (attemptedRetries <= selectionRequestRetries this ->
     this' = this /\
     (forall e, endpoint = Some e -> e ≠ "" -> result = Normal e) /\
     (Js.truthy_string endpoint = false -> result = Throw (Some ALL_UNHEALTHY))).
Proof.
  intros Hrun endpoint. subst endpoint.
  unfold getHealthyDiscoveryProviderEndpoint in Hrun.
  split; intros Hcmp.
  - rewrite bool_decide_eq_true_2 in Hrun by done.
    simpl in Hrun.
    assert (Hthis : calls this' = calls this ++
              [EvAddUnhealthy (discoveryProviderEndpoint this); EvClearCached; EvSelect probe]
            /\ serviceSelector this' =
               {| Selector.currentEndpoint := probe;
                  Selector.unhealthySet :=
                    {[ discoveryProviderEndpoint this ]}
                    ∪ Selector.unhealthySet (serviceSelector this) |}).
    { destruct probe as [e |]; [case_bool_decide |];
        injection Hrun as _ <-; simpl; rewrite <- !app_assoc; done. }
    destruct Hthis as [Hcalls Hsel]. rewrite Hsel. simpl.
    split; [set_solver |]. split; [done |]. split; [done |]. split.
    + intros e -> Hne. rewrite bool_decide_eq_true_2 in Hrun by done. congruence.
    + intros Hfalsy. destruct probe as [e |]; simpl in Hfalsy.
      * rewrite Hfalsy in Hrun. congruence.
      * congruence.
  - rewrite bool_decide_eq_false_2 in Hrun by lia.
    destruct (discoveryProviderEndpoint this) as [e |] eqn:He; simpl.
    + case_bool_decide; injection Hrun as <- <-.
      * split; [done |]. split; [congruence | done].
      * split; [done |]. split; [| done]. intros e' [= <-]. done.
    + injection Hrun as <- <-. split; [done |]. split; [done | done].
Qed.

Lemma C5_witness :
  Some "https://dn1.example"
    ∈ Selector.unhealthySet (serviceSelector
        (getHealthyDiscoveryProviderEndpoint Examples.fresh (Some "https://dn2.example") 6).2) /\
  (getHealthyDiscoveryProviderEndpoint Examples.fresh (Some "https://dn2.example") 5).2
  = Examples.fresh.
Proof.
  split.
  - refine (proj1 (proj1 (C5_reselect_only_past_retry_budget Examples.fresh _
                            (Some "https://dn2.example") 6 _ _) _)).
    + apply surjective_pairing.
    + vm_compute. reflexivity.
  - refine (proj1 (proj2 (C5_reselect_only_past_retry_budget Examples.fresh _
                            (Some "https://dn2.example") 5 _ _) _)).
    + apply surjective_pairing.
    + vm_compute. discriminate.
Defined.

(** ** One invocation of [_makeRequest] *)

(** The first block when an endpoint comes back: the attempt count is
    kept if the endpoint is the one in use and restarts from [0]
    otherwise; either way the endpoint in use is now the one returned. *)
Lemma _makeRequest_select_normal (this this1 : DiscoveryProvider)
    (probe : option string) (attemptedRetries : Z) (e : string) :
  getHealthyDiscoveryProviderEndpoint this probe attemptedRetries = (Normal e, this1) ->
  exists this2,
    _makeRequest_select this probe attemptedRetries
    = (Normal (if bool_decide (discoveryProviderEndpoint this = Some e)
               then attemptedRetries else 0), this2) /\
    discoveryProviderEndpoint this2 = Some e /\
    calls this2 = calls this1 /\
    request404Count this2 = request404Count this /\
    maxRequestsForTrue404 this2 = maxRequestsForTrue404 this /\
    selectionRequestRetries this2 = selectionRequestRetries this /\
    ethContracts this2 = ethContracts this /\
    unhealthyBlockDiff this2 = unhealthyBlockDiff this /\
    unhealthySlotDiffPlays this2 = unhealthySlotDiffPlays this.
Proof.
  intros Hsel.
  destruct (getHealthy_frame _ _ _ _ _ Hsel) as (Hep & H404 & Hmax & Hret & Heth & Hblk & Hslot).
  unfold _makeRequest_select. rewrite Hsel, Hep.
  destruct (decide (discoveryProviderEndpoint this = Some e)) as [Heq | Hne].
  - rewrite (bool_decide_eq_false_2 (_ ≠ _)) by (intros ?; done).
    rewrite bool_decide_eq_true_2 by done.
    exists this1. repeat split; congruence.
  - rewrite (bool_decide_eq_true_2 (_ ≠ _)) by done.
    rewrite bool_decide_eq_false_2 by done.
    eexists. split; [reflexivity |]. simpl. repeat split; congruence.
Qed.

(** The first block when no endpoint comes back. *)
Lemma _makeRequest_select_throw (this this1 : DiscoveryProvider)
    (probe : option string) (attemptedRetries : Z) (message : option string) :
  getHealthyDiscoveryProviderEndpoint this probe attemptedRetries = (Throw message, this1) ->
  _makeRequest_select this probe attemptedRetries = (Throw message, this1).
Proof. intros Hsel. unfold _makeRequest_select. rewrite Hsel. reflexivity. Qed.

(** The [catch] and validation blocks only ever append to the record
    of events and never touch the endpoint in use. *)
Lemma _makeRequest_catch_calls (this this' : DiscoveryProvider) (retry : bool)
    (attemptedRetries : Z) (message : option string) (step : Step) :
  _makeRequest_catch this retry attemptedRetries message = (step, this') ->
  discoveryProviderEndpoint this' = discoveryProviderEndpoint this /\
  exists tail, calls this' = calls this ++ tail.
Proof.
  unfold _makeRequest_catch.
  destruct retry; [| intros [= <- <-]; split; [done | exists []; by rewrite app_nil_r]].
  case_bool_decide; [| intros [= <- <-]; split; [done | exists []; by rewrite app_nil_r]].
  simpl. case_bool_decide; intros [= <- <-]; simpl; split; try done; by eexists.
Qed.

Lemma _makeRequest_validate_calls (this this' : DiscoveryProvider) (retry : bool)
    (attemptedRetries : Z) (parsedResponse : ParsedResponse) (step : Step) :
  _makeRequest_validate this retry attemptedRetries parsedResponse = (step, this') ->
  discoveryProviderEndpoint this' = discoveryProviderEndpoint this /\
  calls this' = calls this.
Proof.
  unfold _makeRequest_validate.
  repeat case_match; intros [= <- <-]; done.
Qed.

(** The body, once the first block has produced an attempt count. *)
Lemma _makeRequest_body_selected (w : World) (this this2 : DiscoveryProvider)
    (requestObj : Request.RequestParams) (retry : bool) (attemptedRetries issued : Z) :
  _makeRequest_select this (probe w) attemptedRetries = (Normal issued, this2) ->
  let this3 := record_call (EvRequest (discoveryProviderEndpoint this2) issued) this2 in
  let requestObj' :=
    (_createDiscProvRequest this3 requestObj (discoveryProviderEndpoint this3)).2 in
  _makeRequest_body w this requestObj retry attemptedRetries =
  match outcome w with
  | Axios.Responds parsedResponse =>
      ((_makeRequest_validate this3 retry issued parsedResponse).1,
       (_makeRequest_validate this3 retry issued parsedResponse).2, requestObj')
  | Axios.Fails status message =>
      ((_makeRequest_catch this3 retry issued (thrown_message status message)).1,
       (_makeRequest_catch this3 retry issued (thrown_message status message)).2, requestObj')
  end.
Proof.
  intros Hblock this3 requestObj'. subst this3 requestObj'.
  unfold _makeRequest_body. rewrite Hblock. cbv zeta.
  unfold _performRequestWithMonitoring, thrown_message.
  destruct (_createDiscProvRequest _ requestObj _) as [axiosRequest requestObj1].
  destruct (outcome w) as [parsedResponse | status message]; cbn [snd].
  - by destruct (_makeRequest_validate _ _ _ _).
  - case_bool_decide; by destruct (_makeRequest_catch _ _ _ _).
Qed.

(** The body, when the first block throws: the error is caught and the
    invocation returns [undefined]. *)
Lemma _makeRequest_body_unselected (w : World) (this this1 : DiscoveryProvider)
    (requestObj : Request.RequestParams) (retry : bool) (attemptedRetries : Z)
    (message : option string) :
  _makeRequest_select this (probe w) attemptedRetries = (Throw message, this1) ->
  _makeRequest_body w this requestObj retry attemptedRetries
  = (Return ReturnsUndefined, this1, requestObj).
Proof. intros Hblock. unfold _makeRequest_body. by rewrite Hblock. Qed.

(** C6: when the endpoint that selection returns differs from the one in
    use, the request of this invocation is issued with [attemptedRetries]
    back at [0] (and the endpoint in use updated); when it is the same
    endpoint the count is the one passed in.  The count so obtained is
    the one a failed request retries from. *)
Theorem C6_attempt_counter_reset_on_switch
    (w : World) (this this1 this' : DiscoveryProvider)
    (requestObj requestObj' : Request.RequestParams)
    (retry : bool) (attemptedRetries : Z) (e : string) (step : Step) :
  getHealthyDiscoveryProviderEndpoint this (probe w) attemptedRetries = (Normal e, this1) ->
  _makeRequest_body w this requestObj retry attemptedRetries = (step, this', requestObj') ->
  let issued :=
    if bool_decide (discoveryProviderEndpoint this = Some e) then attemptedRetries else 0 in
  discoveryProviderEndpoint this' = Some e /\
  (exists tail, calls this' = calls this1 ++ EvRequest (Some e) issued :: tail) /\
  (forall status message,
     outcome w = Axios.Fails status message ->
     status ≠ Some 404 -> message ≠ Some "404" -> retry = true ->
     step = Recurse (issued + 1)).
Proof.
  intros Hsel Hbody issued.
  destruct (_makeRequest_select_normal _ _ _ _ _ Hsel)
    as (this2 & Hblock & Hep & Hcalls & _).
  fold issued in Hblock.
  rewrite (_makeRequest_body_selected _ _ _ _ _ _ _ Hblock) in Hbody.
  rewrite Hep in Hbody.
  destruct (outcome w) as [parsedResponse | status message] eqn:Hout.
  - destruct (_makeRequest_validate _ retry issued parsedResponse) as [step1 this3] eqn:Hval.
    injection Hbody as <- <- <-.
    apply _makeRequest_validate_calls in Hval as [Hep3 Hcalls3].
    simpl in Hep3, Hcalls3. rewrite Hep3, Hcalls3, Hep, Hcalls.
    split; [done |]. split; [by exists [] |]. discriminate.
  - destruct (_makeRequest_catch _ retry issued _) as [step1 this3] eqn:Hcatch.
    injection Hbody as <- <- <-.
    pose proof Hcatch as Hcatch'.
    apply _makeRequest_catch_calls in Hcatch' as [Hep3 [tail Hcalls3]].
    simpl in Hep3, Hcalls3. rewrite Hep3, Hcalls3, Hep, Hcalls.
    split; [done |]. split; [exists tail; by rewrite <- app_assoc |].
    intros status0 message0 [= <- <-] Hstatus Hmessage ->.
    unfold _makeRequest_catch, thrown_message in Hcatch.
    rewrite (bool_decide_eq_false_2 (status = _)) in Hcatch by done.
    rewrite bool_decide_eq_false_2 in Hcatch by done.
    by injection Hcatch as <- _.
Qed.

Lemma C6_witness :
  (_makeRequest_body
     {| probe := Some "https://dn2.example"; outcome := Axios.Fails (Some 500) None |}
     Examples.fresh Examples.get_users true 6).1.1 = Recurse 1.
Proof.
  set (w := {| probe := Some "https://dn2.example"; outcome := Axios.Fails (Some 500) None |}).
  pose proof (C6_attempt_counter_reset_on_switch w Examples.fresh
                (getHealthyDiscoveryProviderEndpoint Examples.fresh (probe w) 6).2
                (_makeRequest_body w Examples.fresh Examples.get_users true 6).1.2
                Examples.get_users
                (_makeRequest_body w Examples.fresh Examples.get_users true 6).2
                true 6 "https://dn2.example"
                (_makeRequest_body w Examples.fresh Examples.get_users true 6).1.1) as H.
  cbv zeta in H.
  destruct H as (_ & _ & H).
  - vm_compute. reflexivity.
  - vm_compute. reflexivity.
  - apply (H (Some 500) None); [reflexivity | discriminate | discriminate | reflexivity].
Defined.

(** In regressed mode, or without [ethContracts], a response that is an
    object passes validation whatever its block and slot fields say. *)
Lemma _makeRequest_validate_regressed (this : DiscoveryProvider) (retry : bool)
    (attemptedRetries : Z) (r : ResponseObj) :
  notInRegressedMode this = false ->
  _makeRequest_validate this retry attemptedRetries (Some r)
  = (Return (Data (data r)), set_request404Count 0 this).
Proof. intros H. unfold _makeRequest_validate. rewrite H. reflexivity. Qed.

(** C4: when a response arrives while [isInRegressedMode()] is true,
    [_makeRequest] returns its [data] and resets the 404 count, whatever
    the block lag and the slot lag of the response are. *)
Theorem C4_regressed_mode_suppresses_staleness
    (w : World) (script : list World) (this this1 : DiscoveryProvider)
    (requestObj : Request.RequestParams) (retry : bool) (attemptedRetries : Z)
    (e : string) (r : ResponseObj) (c : EthContracts) :
  getHealthyDiscoveryProviderEndpoint this (probe w) attemptedRetries = (Normal e, this1) ->
  outcome w = Axios.Responds (Some r) ->
  ethContracts this = Some c ->
  isInRegressedMode c = true ->
  exists this' requestObj',
    _makeRequest (w :: script) this requestObj retry attemptedRetries
    = Some (Data (data r), this', requestObj') /\
    request404Count this' = 0.
Proof.
  intros Hsel Hout Heth Hflag.
  destruct (_makeRequest_select_normal _ _ _ _ _ Hsel)
    as (this2 & Hblock & _ & _ & _ & _ & _ & Heth2 & _).
  simpl. rewrite (_makeRequest_body_selected _ _ _ _ _ _ _ Hblock), Hout.
  rewrite _makeRequest_validate_regressed.
  - simpl. eexists _, _. split; reflexivity.
  - unfold notInRegressedMode. simpl. rewrite Heth2, Heth, Hflag. reflexivity.
Qed.

Lemma C4_witness :
  _getBlocksBehind Examples.regressed (Some Examples.lagging) = Some (Js.Fin 500) /\
  _getPlaysSlotsBehind Examples.regressed (Some Examples.lagging) = Some (Js.Fin 1000) /\
  exists this' requestObj',
    _makeRequest [Examples.answers Examples.lagging] Examples.regressed
      Examples.get_users true 0
    = Some (Data "payload", this', requestObj') /\
    request404Count this' = 0.
Proof.
  split; [reflexivity |]. split; [reflexivity |].
  apply (C4_regressed_mode_suppresses_staleness (Examples.answers Examples.lagging) []
           Examples.regressed Examples.regressed Examples.get_users true 0
           "https://dn1.example" Examples.lagging {| isInRegressedMode := true |});
    reflexivity.
Defined.

(** Outside regressed mode the same response is rejected as stale. *)
Example stale_response_is_retried :
  (_makeRequest_body (Examples.answers Examples.lagging) Examples.fresh
     Examples.get_users true 0).1.1 = Recurse 1.
Proof. vm_compute. reflexivity. Qed.

(** ** Whole calls *)

(** The catch block never ends in a rejection. *)
Lemma _makeRequest_catch_no_throw (this this' : DiscoveryProvider) (retry : bool)
    (attemptedRetries : Z) (message thrown : option string) :
  _makeRequest_catch this retry attemptedRetries message ≠ (Return (Throws thrown), this').
Proof.
  unfold _makeRequest_catch. repeat case_match; discriminate.
Qed.

(** Validation of a response that is an object never ends in a
    rejection. *)
Lemma _makeRequest_validate_no_throw (this this' : DiscoveryProvider) (retry : bool)
    (attemptedRetries : Z) (r : ResponseObj) (thrown : option string) :
  _makeRequest_validate this retry attemptedRetries (Some r) ≠ (Return (Throws thrown), this').
Proof.
  unfold _makeRequest_validate. repeat case_match; discriminate.
Qed.

(** One invocation never ends in a rejection unless the response body is
    [null]. *)
Lemma _makeRequest_body_no_throw (w : World) (this this' : DiscoveryProvider)
    (requestObj requestObj' : Request.RequestParams) (retry : bool)
    (attemptedRetries : Z) (thrown : option string) :
  outcome w ≠ Axios.Responds None ->
  _makeRequest_body w this requestObj retry attemptedRetries
  ≠ (Return (Throws thrown), this', requestObj').
Proof.
  intros Hbody.
  destruct (_makeRequest_select this (probe w) attemptedRetries) as [[issued | message] this2] eqn:Hblock.
  - rewrite (_makeRequest_body_selected _ _ _ _ _ _ _ Hblock).
    destruct (outcome w) as [[r |] | status message]; [| done |].
    + intros [= H1 H2 _]. eapply _makeRequest_validate_no_throw.
      by rewrite (surjective_pairing (_makeRequest_validate _ _ _ _)), H1, H2.
    + intros [= H1 H2 _]. eapply _makeRequest_catch_no_throw.
      by rewrite (surjective_pairing (_makeRequest_catch _ _ _ _)), H1, H2.
  - rewrite (_makeRequest_body_unselected _ _ _ _ _ _ _ Hblock). discriminate.
Qed.

(** C2, as the code has it: when no endpoint can be had,
    [getHealthyDiscoveryProviderEndpoint] throws, [_makeRequest] catches
    the error and resolves to [undefined]; and no failed request, 404 or
    stale response makes [_makeRequest] reject either, as long as every
    response body is an object. *)
Theorem C2_selection_failure_resolves_to_undefined :
  (forall (w : World) (script : list World) (this this1 : DiscoveryProvider)
          (requestObj : Request.RequestParams) (retry : bool) (attemptedRetries : Z)
          (message : option string),
     getHealthyDiscoveryProviderEndpoint this (probe w) attemptedRetries
     = (Throw message, this1) ->
     _makeRequest (w :: script) this requestObj retry attemptedRetries
     = Some (ReturnsUndefined, this1, requestObj))
  /\
  (forall (script : list World) (this this' : DiscoveryProvider)
          (requestObj requestObj' : Request.RequestParams) (retry : bool)
          (attemptedRetries : Z) (result : Result),
     Forall (fun w => outcome w ≠ Axios.Responds None) script ->
     _makeRequest script this requestObj retry attemptedRetries
     = Some (result, this', requestObj') ->
     forall thrown, result ≠ Throws thrown).
Proof.
  split.
  - intros w script this this1 requestObj retry attemptedRetries message Hsel.
    simpl.
    by rewrite (_makeRequest_body_unselected _ _ _ _ _ _ _
                  (_makeRequest_select_throw _ _ _ _ _ Hsel)).
  - intros script. induction script as [| w script IH];
      intros this this' requestObj requestObj' retry attemptedRetries result Hall Hrun thrown.
    + discriminate.
    + apply Forall_cons in Hall as [Hw Hall]. simpl in Hrun.
      destruct (_makeRequest_body w this requestObj retry attemptedRetries)
        as [[[r | n] this2] requestObj2] eqn:Hbody.
      * injection Hrun as -> -> ->. intros ->.
        by eapply _makeRequest_body_no_throw.
      * by eapply IH.
Qed.

Lemma C2_witness :
  _makeRequest [Examples.not_found None] Examples.fresh Examples.get_users true 6
  = Some (ReturnsUndefined,
          (getHealthyDiscoveryProviderEndpoint Examples.fresh None 6).2,
          Examples.get_users).
Proof.
  apply (proj1 C2_selection_failure_resolves_to_undefined (Examples.not_found None) []
           Examples.fresh _ Examples.get_users true 6 (Some ALL_UNHEALTHY)).
  vm_compute. reflexivity.
Defined.

(** C2 fails as stated: a single endpoint answers 404, the forced
    reselection finds no endpoint, and the call resolves to [undefined];
    nothing is thrown to the caller. *)
Lemma C2_counterexample :
  exists this' requestObj',
    request [Examples.not_found None; Examples.not_found None]
      Examples.fresh Examples.get_users
    = Some (ReturnsUndefined, this', requestObj') /\
    EvSelect None ∈ calls this' /\
    ReturnsUndefined ≠ Throws (Some ALL_UNHEALTHY).
Proof.
  eexists _, _. split; [vm_compute; reflexivity |].
  split; [| discriminate].
  simpl. set_solver.
Qed.

(** ** The 404 budget *)

Lemma count_events_app (kind : Event -> bool) (evs1 evs2 : list Event) :
  count_events kind (evs1 ++ evs2) = count_events kind evs1 + count_events kind evs2.
Proof.
  unfold count_events. rewrite filter_app, length_app. lia.
Qed.

(** The selection step of an invocation when a probe round would find
    an endpoint, or none is needed. *)
Lemma getHealthy_reselectable (this : DiscoveryProvider) (probe : option string)
    (attemptedRetries : Z) :
  Js.truthy_string probe = true ->
  (attemptedRetries <= selectionRequestRetries this ->
   Js.truthy_string (discoveryProviderEndpoint this) = true) ->
  exists e this1,
    getHealthyDiscoveryProviderEndpoint this probe attemptedRetries = (Normal e, this1) /\
    calls this1 = calls this ++
      (if bool_decide (selectionRequestRetries this < attemptedRetries)
       then [EvAddUnhealthy (discoveryProviderEndpoint this); EvClearCached; EvSelect probe]
       else []).
Proof.
  intros Hprobe Hcur. unfold getHealthyDiscoveryProviderEndpoint.
  case_bool_decide as Hcmp.
  - destruct probe as [e |]; [| discriminate]. simpl in Hprobe |- *.
    rewrite Hprobe. eexists _, _. split; [reflexivity |].
    simpl. by rewrite <- !app_assoc.
  - specialize (Hcur ltac:(lia)).
    destruct (discoveryProviderEndpoint this) as [e |]; [| discriminate].
    simpl in Hcur |- *. rewrite Hcur. eexists _, _. split; [reflexivity |].
    by rewrite app_nil_r.
Qed.

(** The [catch] block on the not-found sentinel, with retries enabled. *)
Lemma _makeRequest_catch_not_found (this : DiscoveryProvider) (attemptedRetries : Z) :
  let counted :=
    record_call (EvNotFound (request404Count this + 1))
      (set_request404Count (request404Count this + 1) this) in
  _makeRequest_catch this true attemptedRetries (Some "404") =
  if bool_decide (request404Count this + 1 < maxRequestsForTrue404 this)
  then (Recurse (selectionRequestRetries this + 1), counted)
  else (Return ReturnsNull, set_request404Count 0 counted).
Proof. reflexivity. Qed.

(** One invocation that is answered with not-found: it issues one
    request (after a reselection when the attempt count is past the
    retry budget), counts the 404, and either asks for a forced
    reselection or gives up with [null] and a count back at zero. *)
Lemma _makeRequest_body_not_found (w : World) (this : DiscoveryProvider)
    (requestObj : Request.RequestParams) (attemptedRetries : Z) :
  answers_not_found w -> reselectable w ->
  (attemptedRetries <= selectionRequestRetries this ->
   Js.truthy_string (discoveryProviderEndpoint this) = true) ->
  exists step this' requestObj' e issued,
    _makeRequest_body w this requestObj true attemptedRetries = (step, this', requestObj') /\
    calls this' = calls this ++
      (if bool_decide (selectionRequestRetries this < attemptedRetries)
       then [EvAddUnhealthy (discoveryProviderEndpoint this); EvClearCached; EvSelect (probe w)]
       else [])
      ++ [EvRequest (Some e) issued; EvNotFound (request404Count this + 1)] /\
    maxRequestsForTrue404 this' = maxRequestsForTrue404 this /\
    selectionRequestRetries this' = selectionRequestRetries this /\
    (request404Count this + 1 < maxRequestsForTrue404 this ->
     step = Recurse (selectionRequestRetries this + 1) /\
     request404Count this' = request404Count this + 1) /\
    (maxRequestsForTrue404 this <= request404Count this + 1 ->
     step = Return ReturnsNull /\ request404Count this' = 0).
Proof.
  intros Hnf Hprobe Hcur.
  destruct (getHealthy_reselectable this (probe w) attemptedRetries Hprobe Hcur)
    as (e & this1 & Hsel & Hcalls1).
  destruct (_makeRequest_select_normal _ _ _ _ _ Hsel)
    as (this2 & Hblock & Hep & Hcalls2 & H404 & Hmax & Hret & _).
  generalize dependent (if bool_decide (discoveryProviderEndpoint this = Some e)
                        then attemptedRetries else 0).
  intros issued Hblock.
  rewrite (_makeRequest_body_selected _ _ _ _ _ _ _ Hblock).
  unfold answers_not_found in Hnf.
  destruct (outcome w) as [| status message]; [done |]. rewrite Hnf.
  rewrite _makeRequest_catch_not_found. simpl.
  rewrite H404, Hmax, Hret, Hep.
  destruct (decide (request404Count this + 1 < maxRequestsForTrue404 this)) as [Hbudget | Hbudget].
  - rewrite (bool_decide_eq_true_2 (request404Count this + 1 < _)) by done.
    eexists _, _, _, e, issued. split; [reflexivity |]. simpl.
    rewrite Hcalls2, Hcalls1, <- !app_assoc. simpl.
    repeat split; try done; lia.
  - rewrite (bool_decide_eq_false_2 (request404Count this + 1 < _)) by done.
    eexists _, _, _, e, issued. split; [reflexivity |]. simpl.
    rewrite Hcalls2, Hcalls1, <- !app_assoc. simpl.
    repeat split; try done; lia.
Qed.

Lemma not_found_within_app (bound : Z) (evs1 evs2 : list Event) :
  not_found_within bound evs1 -> not_found_within bound evs2 ->
  not_found_within bound (evs1 ++ evs2).
Proof. unfold not_found_within. intros. by apply Forall_app. Qed.

(** A call that keeps being answered with not-found while reselection
    keeps finding endpoints: counted from the current [request404Count],
    it gives up with [null] on the answer that brings the count to
    [maxRequestsForTrue404]. *)
Lemma _makeRequest_not_found_run (script : list World) :
  forall (this : DiscoveryProvider) (requestObj : Request.RequestParams)
         (attemptedRetries : Z),
  request404Count this < maxRequestsForTrue404 this ->
  (attemptedRetries <= selectionRequestRetries this ->
   Js.truthy_string (discoveryProviderEndpoint this) = true) ->
  (Z.to_nat (maxRequestsForTrue404 this - request404Count this) <= length script)%nat ->
  Forall (fun w => answers_not_found w /\ reselectable w) script ->
  exists this' requestObj' new,
    _makeRequest script this requestObj true attemptedRetries
    = Some (ReturnsNull, this', requestObj') /\
    request404Count this' = 0 /\
    calls this' = calls this ++ new /\
    count_events is_not_found new = maxRequestsForTrue404 this - request404Count this /\
    count_events is_request new = maxRequestsForTrue404 this - request404Count this /\
    count_events is_select new =
      maxRequestsForTrue404 this - request404Count this
      - (if bool_decide (selectionRequestRetries this < attemptedRetries) then 0 else 1) /\
    last new = Some (EvNotFound (maxRequestsForTrue404 this)) /\
    not_found_within (maxRequestsForTrue404 this) new.
Proof.
  induction script as [| w script IH];
    intros this requestObj attemptedRetries Hlt Hcur Hlen Hall.
  - simpl in Hlen. lia.
  - apply Forall_cons in Hall as [[Hnf Hprobe] Hall].
    destruct (_makeRequest_body_not_found w this requestObj attemptedRetries Hnf Hprobe Hcur)
      as (step & this1 & requestObj1 & e & issued & Hbody & Hcalls & Hmax & Hret & Hmore & Hlast).
    simpl. rewrite Hbody.
    set (sel := if bool_decide (selectionRequestRetries this < attemptedRetries)
                then [EvAddUnhealthy (discoveryProviderEndpoint this); EvClearCached;
                      EvSelect (probe w)]
                else []) in *.
    assert (Hsel : count_events is_not_found sel = 0 /\ count_events is_request sel = 0 /\
                   count_events is_select sel =
                     (if bool_decide (selectionRequestRetries this < attemptedRetries)
                      then 1 else 0) /\
                   not_found_within (maxRequestsForTrue404 this) sel).
    { subst sel. case_bool_decide; repeat split; repeat constructor. }
    destruct Hsel as (Hsel1 & Hsel2 & Hsel3 & Hsel4).
    destruct (decide (request404Count this + 1 < maxRequestsForTrue404 this)) as [Hgo | Hstop].
    + destruct (Hmore Hgo) as [-> Hcount].
      destruct (IH this1 requestObj1 (selectionRequestRetries this + 1))
        as (this' & requestObj' & new & Hrun & Hzero & Hcalls' & Hn1 & Hn2 & Hn3 & Hn4 & Hn5).
      * lia.
      * lia.
      * simpl in Hlen. lia.
      * done.
      * rewrite Hrun. exists this', requestObj',
          (sel ++ [EvRequest (Some e) issued; EvNotFound (request404Count this + 1)] ++ new).
        rewrite Hmax, Hcount, Hret in *.
        rewrite (bool_decide_eq_true_2 (_ < _ + 1)) in Hn3 by lia.
        split; [done |]. split; [done |].
        split; [by rewrite Hcalls', Hcalls, <- !app_assoc |].
        rewrite !count_events_app, Hsel1, Hsel2, Hsel3.
        change (count_events is_not_found [EvRequest (Some e) issued;
                  EvNotFound (request404Count this + 1)]) with 1.
        change (count_events is_request [EvRequest (Some e) issued;
                  EvNotFound (request404Count this + 1)]) with 1.
        change (count_events is_select [EvRequest (Some e) issued;
                  EvNotFound (request404Count this + 1)]) with 0.
        split; [lia |]. split; [lia |]. split; [case_bool_decide; lia |].
        split.
        -- rewrite !last_app, Hn4. done.
        -- apply not_found_within_app; [done |].
           apply not_found_within_app; [| done].
           repeat constructor. lia.
    + destruct (Hlast ltac:(lia)) as [-> Hcount].
      exists this1, requestObj1,
        (sel ++ [EvRequest (Some e) issued; EvNotFound (request404Count this + 1)]).
      split; [done |]. split; [done |]. split; [done |].
      rewrite !count_events_app, Hsel1, Hsel2, Hsel3.
      change (count_events is_not_found [EvRequest (Some e) issued;
                EvNotFound (request404Count this + 1)]) with 1.
      change (count_events is_request [EvRequest (Some e) issued;
                EvNotFound (request404Count this + 1)]) with 1.
      change (count_events is_select [EvRequest (Some e) issued;
                EvNotFound (request404Count this + 1)]) with 0.
      split; [lia |]. split; [lia |]. split; [case_bool_decide; lia |].
      split.
      * rewrite last_app. simpl. f_equal. f_equal. lia.
      * apply not_found_within_app; [done |]. repeat constructor. lia.
Qed.

(** C1, as the code has it: a call with retries enabled that starts
    with [request404Count] at zero and is answered with not-found every
    time, while reselection keeps finding endpoints, gives up with [null]
    on the [maxRequestsForTrue404]-th not-found answer, not on the
    one after it.  It issues [maxRequestsForTrue404] requests; each
    not-found answer but the last is followed by a forced reselection
    and the last one by none; the count never goes past
    [maxRequestsForTrue404] and is back at zero when the call returns. *)
Theorem C1_not_found_budget
    (script : list World) (this : DiscoveryProvider)
    (requestObj : Request.RequestParams) (attemptedRetries : Z) :
  request404Count this = 0 ->
  0 < maxRequestsForTrue404 this ->
  attemptedRetries <= selectionRequestRetries this ->
  Js.truthy_string (discoveryProviderEndpoint this) = true ->
  (Z.to_nat (maxRequestsForTrue404 this) <= length script)%nat ->
  Forall (fun w => answers_not_found w /\ reselectable w) script ->
  exists this' requestObj' new,
    _makeRequest script this requestObj true attemptedRetries
    = Some (ReturnsNull, this', requestObj') /\
    request404Count this' = 0 /\
    calls this' = calls this ++ new /\
    count_events is_not_found new = maxRequestsForTrue404 this /\
    count_events is_request new = maxRequestsForTrue404 this /\
    count_events is_select new = maxRequestsForTrue404 this - 1 /\
    last new = Some (EvNotFound (maxRequestsForTrue404 this)) /\
    not_found_within (maxRequestsForTrue404 this) new.
Proof.
  intros Hzero Hmax Hattempt Hcur Hlen Hall.
  destruct (_makeRequest_not_found_run script this requestObj attemptedRetries)
    as (this' & requestObj' & new & Hrun & Hreset & Hcalls & Hn1 & Hn2 & Hn3 & Hn4 & Hn5);
    [lia | done | by rewrite Hzero, Z.sub_0_r | done |].
  rewrite Hzero, Z.sub_0_r in Hn1, Hn2, Hn3.
  rewrite bool_decide_eq_false_2 in Hn3 by lia.
  by exists this', requestObj', new.
Qed.

Lemma C1_witness :
  exists this' requestObj' new,
    _makeRequest
      [Examples.not_found (Some "https://dn2.example");
       Examples.not_found (Some "https://dn3.example");
       Examples.not_found (Some "https://dn4.example")]
      Examples.fresh Examples.get_users true 0
    = Some (ReturnsNull, this', requestObj') /\
    request404Count this' = 0 /\
    calls this' = calls Examples.fresh ++ new /\
    count_events is_not_found new = 2 /\
    count_events is_request new = 2 /\
    count_events is_select new = 1 /\
    last new = Some (EvNotFound 2) /\
    not_found_within 2 new.
Proof.
  apply (C1_not_found_budget
           [Examples.not_found (Some "https://dn2.example");
            Examples.not_found (Some "https://dn3.example");
            Examples.not_found (Some "https://dn4.example")]
           Examples.fresh Examples.get_users 0).
  - reflexivity.
  - reflexivity.
  - discriminate.
  - reflexivity.
  - vm_compute. lia.
  - repeat constructor.
Defined.

(** C1 fails as stated: with [maxRequestsForTrue404 = 2] and three
    not-found answers on offer, the call returns [null] on the second;
    the third request is never made, so no third not-found answer is
    what ends the call. *)
Lemma C1_counterexample :
  exists this' requestObj',
    request
      [Examples.not_found (Some "https://dn2.example");
       Examples.not_found (Some "https://dn3.example");
       Examples.not_found (Some "https://dn4.example")]
      Examples.fresh Examples.get_users
    = Some (ReturnsNull, this', requestObj') /\
    calls this' =
      [EvRequest (Some "https://dn1.example") 0; EvNotFound 1;
       EvAddUnhealthy (Some "https://dn1.example"); EvClearCached;
       EvSelect (Some "https://dn3.example");
       EvRequest (Some "https://dn3.example") 0; EvNotFound 2] /\
    count_events is_not_found (calls this') ≠ maxRequestsForTrue404 Examples.fresh + 1.
Proof.
  eexists _, _. split; [vm_compute; reflexivity |].
  split; [reflexivity |]. vm_compute. discriminate.
Qed.

(** ** Scope of the counters *)

(** C7, evaluated on the code: a call that is answered 404 once and then
    finds no endpoint to reselect returns [undefined] and leaves
    [request404Count] at 1; the next call starts from that count and
    gives up on its first not-found answer, without trying another
    endpoint. *)
Theorem C7_request404Count_survives_failed_selection :
  exists this1 requestObj1 this2 requestObj2,
    request404Count Examples.fresh = 0 /\
    request [Examples.not_found None; Examples.not_found None]
      Examples.fresh Examples.get_users
    = Some (ReturnsUndefined, this1, requestObj1) /\
    request404Count this1 = 1 /\
    request
      [Examples.not_found (Some "https://dn2.example");
       Examples.not_found (Some "https://dn3.example")]
      this1 Examples.get_users
    = Some (ReturnsNull, this2, requestObj2) /\
    calls this2 = calls this1 ++ [EvRequest (Some "https://dn1.example") 0; EvNotFound 2].
Proof.
  eexists _, _, _, _. split; [reflexivity |].
  split; [vm_compute; reflexivity |].
  split; [reflexivity |].
  split; [vm_compute; reflexivity |].
  reflexivity.
Qed.

(** ** Building the request *)

(** What the sanitizing loop leaves in the object: the entries whose
    value is neither [undefined] nor [null], untouched. *)
Lemma sanitize_lookup (queryParams : gmap string Request.value) (k : string) :
  sanitize queryParams !! k =
  match queryParams !! k with
  | Some v => if Request.is_nullish v then None else Some v
  | None => None
  end.
Proof.
  unfold sanitize.
  assert (forall seen : gmap string Request.value,
            map_fold (fun k v obj => if Request.is_nullish v then delete k obj else obj)
              queryParams seen !! k =
            match seen !! k with
            | Some v => if Request.is_nullish v then None else queryParams !! k
            | None => queryParams !! k
            end) as Hfold.
  { intros seen.
    apply (map_fold_weak_ind
             (fun (obj seen : gmap string Request.value) =>
                obj !! k = match seen !! k with
                           | Some v => if Request.is_nullish v then None else queryParams !! k
                           | None => queryParams !! k
                           end)).
    - by rewrite lookup_empty.
    - intros i x m obj Hfresh IH.
      destruct (decide (i = k)) as [-> | Hne].
      + rewrite lookup_insert_eq, Hfresh in *.
        destruct (Request.is_nullish x); [by rewrite lookup_delete_eq | done].
      + rewrite lookup_insert_ne by done.
        destruct (Request.is_nullish x); [by rewrite lookup_delete_ne | done]. }
  rewrite Hfold. by destruct (queryParams !! k) as [v |]; [destruct (Request.is_nullish v) |].
Qed.

(** Without an [undefined] or [null] value the loop deletes nothing. *)
Lemma sanitize_id (queryParams : gmap string Request.value) :
  (forall k v, queryParams !! k = Some v -> Request.is_nullish v = false) ->
  sanitize queryParams = queryParams.
Proof.
  intros Hclean. apply map_eq. intros k. rewrite sanitize_lookup.
  destruct (queryParams !! k) as [v |] eqn:Hk; [| done].
  by rewrite (Hclean k v Hk).
Qed.

(** C9, as the code has it: [_createDiscProvRequest] deletes from the
    caller's [queryParams] the entries whose value is [undefined] or
    [null] and keeps the others; when the caller supplied [headers] and a
    current user id exists it sets [X-User-ID] in them; every other field
    stays as passed in.  The object is unchanged as a whole when no query
    parameter is [undefined] or [null] and no [X-User-ID] is written to
    the caller's [headers]. *)
Theorem C9_request_object_edited_in_place
    (this : DiscoveryProvider) (requestObj : Request.RequestParams)
    (discoveryProviderEndpoint : option string) :
  let requestObj' :=
    (_createDiscProvRequest this requestObj discoveryProviderEndpoint).2 in
  (Request.endpoint requestObj' = Request.endpoint requestObj /\
   Request.timeout requestObj' = Request.timeout requestObj /\
   Request.method requestObj' = Request.method requestObj /\
   Request.urlParams requestObj' = Request.urlParams requestObj /\
   Request.data requestObj' = Request.data requestObj) /\
  (Request.queryParams requestObj = None -> Request.queryParams requestObj' = None) /\
  (forall queryParams, Request.queryParams requestObj = Some queryParams ->
     exists queryParams',
       Request.queryParams requestObj' = Some queryParams' /\
       forall k, queryParams' !! k =
                 match queryParams !! k with
                 | Some v => if Request.is_nullish v then None else Some v
                 | None => None
                 end) /\
  (Request.headers requestObj = None -> Request.headers requestObj' = None) /\
  (forall headers, Request.headers requestObj = Some headers ->
     Request.headers requestObj' =
     Some (match currentUserId this with
           | Some uid => if bool_decide (uid ≠ "") then <["X-User-ID" := uid]> headers
                         else headers
           | None => headers
           end)) /\
  ((forall queryParams k v,
      Request.queryParams requestObj = Some queryParams ->
      queryParams !! k = Some v -> Request.is_nullish v = false) ->
   Js.truthy_string (currentUserId this) = false \/ Request.headers requestObj = None ->
   requestObj' = requestObj).
Proof.
  intros requestObj'. subst requestObj'. unfold _createDiscProvRequest. cbn [snd].
  destruct requestObj as [queryParams endpoint timeout method urlParams headers data].
  cbn [Request.queryParams Request.endpoint Request.timeout Request.method
       Request.urlParams Request.headers Request.data].
  split; [done |].
  split; [by intros -> |].
  split.
  { intros m ->. exists (sanitize m). split; [done |]. apply sanitize_lookup. }
  split; [by intros -> |].
  split; [by intros h -> |].
  intros Hclean Hheaders.
  assert (sanitize <$> queryParams = queryParams) as ->.
  { destruct queryParams as [m |]; [| done]. simpl. f_equal.
    apply sanitize_id. intros k v. by apply Hclean. }
  f_equal.
  destruct Hheaders as [Huid | ->]; [| done].
  destruct headers as [h |]; [| done]. simpl. f_equal.
  destruct (currentUserId this) as [uid |]; [| done].
  simpl in Huid. by rewrite Huid.
Qed.


(** C9 fails as stated: a descriptor that leaves the optional [handle]
    parameter [undefined] comes back without that key. *)
Lemma C9_counterexample :
  exists k,
    (Request.queryParams Examples.get_users_optional ≫= (fun m => m !! k))
      = Some Request.Undefined /\
    (Request.queryParams
       (_createDiscProvRequest Examples.fresh Examples.get_users_optional
          (Some "https://dn1.example")).2 ≫= (fun m => m !! k)) = None /\
    (_createDiscProvRequest Examples.fresh Examples.get_users_optional
       (Some "https://dn1.example")).2 ≠ Examples.get_users_optional.
Proof.
  exists "handle".
  assert (H1 : Request.queryParams Examples.get_users_optional ≫= (fun m => m !! "handle")
               = Some Request.Undefined).
  { vm_compute. reflexivity. }
  assert (H2 : Request.queryParams
                 (_createDiscProvRequest Examples.fresh Examples.get_users_optional
                    (Some "https://dn1.example")).2 ≫= (fun m => m !! "handle") = None).
  { vm_compute. reflexivity. }
  split; [exact H1 |]. split; [exact H2 |].
  intros Heq. rewrite Heq in H2. rewrite H1 in H2. congruence.
Qed.

Lemma C9_witness :
  (_createDiscProvRequest Examples.fresh Examples.get_users (Some "https://dn1.example")).2
  = Examples.get_users.
Proof.
  refine (proj2 (proj2 (proj2 (proj2 (proj2
            (C9_request_object_edited_in_place Examples.fresh Examples.get_users
               (Some "https://dn1.example")))))) _ _).
  - intros queryParams k v [= <-] Hk.
    destruct (decide (k = "limit")) as [-> | Hne].
    + rewrite lookup_singleton_eq in Hk. by injection Hk as <-.
    + by rewrite lookup_singleton_ne in Hk.
  - right. reflexivity.
Defined.

(** ** Invariants of the retry loop *)

(** Selection records selector calls only. *)
Lemma getHealthy_calls (this this1 : DiscoveryProvider) (probe : option string)
    (attemptedRetries : Z) (result : Completion string) :
  getHealthyDiscoveryProviderEndpoint this probe attemptedRetries = (result, this1) ->
  exists sel, calls this1 = calls this ++ sel /\
              Forall (fun ev => is_not_found ev = false) sel.
Proof.
  unfold getHealthyDiscoveryProviderEndpoint.
  case_bool_decide; simpl.
  - intros Hrun.
    exists [EvAddUnhealthy (discoveryProviderEndpoint this); EvClearCached; EvSelect probe].
    split; [| repeat constructor].
    destruct probe as [e |]; [case_bool_decide |];
      injection Hrun as _ <-; simpl; by rewrite <- !app_assoc.
  - intros Hrun. exists []. split; [| constructor].
    destruct (discoveryProviderEndpoint this) as [e |]; [case_bool_decide |];
      injection Hrun as _ <-; by rewrite app_nil_r.
Qed.

(** One invocation keeps [request404Count] within
    [0 .. maxRequestsForTrue404 - 1] from one invocation to the next, and
    every value the counter takes in between is at most
    [maxRequestsForTrue404]. *)
Lemma _makeRequest_body_count_bounded (w : World) (this this' : DiscoveryProvider)
    (requestObj requestObj' : Request.RequestParams) (retry : bool)
    (attemptedRetries : Z) (step : Step) :
  0 <= request404Count this < maxRequestsForTrue404 this ->
  _makeRequest_body w this requestObj retry attemptedRetries = (step, this', requestObj') ->
  maxRequestsForTrue404 this' = maxRequestsForTrue404 this /\
  0 <= request404Count this' < maxRequestsForTrue404 this /\
  exists new, calls this' = calls this ++ new /\
              not_found_within (maxRequestsForTrue404 this) new.
Proof.
  intros Hinv Hbody.
  destruct (getHealthyDiscoveryProviderEndpoint this (probe w) attemptedRetries)
    as [[e | message] this1] eqn:Hsel.
  - destruct (getHealthy_calls _ _ _ _ _ Hsel) as (sel & Hcalls1 & Hsel_nf).
    assert (Hsel_ok : not_found_within (maxRequestsForTrue404 this) sel).
    { unfold not_found_within. eapply Forall_impl; [exact Hsel_nf |].
      by intros [] ?. }
    destruct (_makeRequest_select_normal _ _ _ _ _ Hsel)
      as (this2 & Hblock & Hep & Hcalls2 & H404 & Hmax & _).
    generalize dependent (if bool_decide (discoveryProviderEndpoint this = Some e)
                          then attemptedRetries else 0).
    intros issued Hblock.
    rewrite (_makeRequest_body_selected _ _ _ _ _ _ _ Hblock) in Hbody.
    destruct (outcome w) as [parsedResponse | status message].
    + injection Hbody as _ <- _.
      unfold _makeRequest_validate.
      repeat case_match; simpl; rewrite ?Hmax, ?H404;
        (split; [done |]; split; [lia |]);
        exists (sel ++ [EvRequest (discoveryProviderEndpoint this2) issued]);
        (split; [by rewrite Hcalls2, Hcalls1, <- app_assoc |]);
        (apply not_found_within_app; [done | by repeat constructor]).
    + injection Hbody as _ <- _.
      unfold _makeRequest_catch.
      destruct retry; [destruct (bool_decide (thrown_message status message = Some "404")) |];
        simpl; rewrite ?Hmax, ?H404.
      * destruct (decide (request404Count this + 1 < maxRequestsForTrue404 this)).
        -- rewrite bool_decide_eq_true_2 by done. simpl. rewrite ?Hmax, ?H404.
           split; [done |]. split; [lia |].
           exists (sel ++ [EvRequest (discoveryProviderEndpoint this2) issued;
                           EvNotFound (request404Count this + 1)]).
           split; [by rewrite Hcalls2, Hcalls1, <- !app_assoc |].
           apply not_found_within_app; [done |]. repeat constructor. lia.
        -- rewrite bool_decide_eq_false_2 by done. simpl. rewrite ?Hmax, ?H404.
           split; [done |]. split; [lia |].
           exists (sel ++ [EvRequest (discoveryProviderEndpoint this2) issued;
                           EvNotFound (request404Count this + 1)]).
           split; [by rewrite Hcalls2, Hcalls1, <- !app_assoc |].
           apply not_found_within_app; [done |]. repeat constructor. lia.
      * split; [done |]. split; [lia |].
        exists (sel ++ [EvRequest (discoveryProviderEndpoint this2) issued]).
        split; [by rewrite Hcalls2, Hcalls1, <- app_assoc |].
        apply not_found_within_app; [done | by repeat constructor].
      * split; [done |]. split; [lia |].
        exists (sel ++ [EvRequest (discoveryProviderEndpoint this2) issued]).
        split; [by rewrite Hcalls2, Hcalls1, <- app_assoc |].
        apply not_found_within_app; [done | by repeat constructor].
  - destruct (getHealthy_calls _ _ _ _ _ Hsel) as (sel & Hcalls1 & Hsel_nf).
    destruct (getHealthy_frame _ _ _ _ _ Hsel) as (_ & H404 & Hmax & _).
    rewrite (_makeRequest_body_unselected _ _ _ _ _ _ _
               (_makeRequest_select_throw _ _ _ _ _ Hsel)) in Hbody.
    injection Hbody as _ <- _. rewrite Hmax, H404.
    split; [done |]. split; [done |]. exists sel. split; [done |].
    unfold not_found_within. eapply Forall_impl; [exact Hsel_nf |]. by intros [] ?.
Qed.

(** X5: over a whole call, whatever the world answers and whether or
    not retries are enabled: if [request404Count] starts within
    [0 .. maxRequestsForTrue404 - 1] it is within that range again when
    the call returns, no value it takes in between exceeds
    [maxRequestsForTrue404], and [maxRequestsForTrue404] itself is not
    changed. *)
Lemma _makeRequest_count_bounded (script : list World) :
  forall (this this' : DiscoveryProvider)
         (requestObj requestObj' : Request.RequestParams) (retry : bool)
         (attemptedRetries : Z) (result : Result),
  0 <= request404Count this < maxRequestsForTrue404 this ->
  _makeRequest script this requestObj retry attemptedRetries
  = Some (result, this', requestObj') ->
  maxRequestsForTrue404 this' = maxRequestsForTrue404 this /\
  0 <= request404Count this' < maxRequestsForTrue404 this /\
  exists new, calls this' = calls this ++ new /\
              not_found_within (maxRequestsForTrue404 this) new.
Proof.
  induction script as [| w script IH];
    intros this this' requestObj requestObj' retry attemptedRetries result Hinv Hrun.
  - discriminate.
  - simpl in Hrun.
    destruct (_makeRequest_body w this requestObj retry attemptedRetries)
      as [[[r | n] this1] requestObj1] eqn:Hbody.
    + injection Hrun as _ <- _. by eapply _makeRequest_body_count_bounded.
    + destruct (_makeRequest_body_count_bounded _ _ _ _ _ _ _ _ Hinv Hbody)
        as (Hmax1 & Hinv1 & new1 & Hcalls1 & Hnew1).
      destruct (IH this1 this' requestObj1 requestObj' retry n result) as
        (Hmax2 & Hinv2 & new2 & Hcalls2 & Hnew2); [by rewrite Hmax1 | done |].
      rewrite Hmax1 in *.
      split; [done |]. split; [done |].
      exists (new1 ++ new2). split; [by rewrite Hcalls2, Hcalls1, <- app_assoc |].
      by apply not_found_within_app.
Qed.

(** With retries enabled, every way out of one invocation but the
    caught selection failure leaves [request404Count] at zero. *)
Lemma _makeRequest_body_exit_resets (w : World) (this this' : DiscoveryProvider)
    (requestObj requestObj' : Request.RequestParams) (attemptedRetries : Z)
    (result : Result) :
  _makeRequest_body w this requestObj true attemptedRetries
  = (Return result, this', requestObj') ->
  result ≠ ReturnsUndefined ->
  request404Count this' = 0.
Proof.
  intros Hbody Hres.
  destruct (_makeRequest_select this (probe w) attemptedRetries)
    as [[issued | message] this2] eqn:Hblock.
  - rewrite (_makeRequest_body_selected _ _ _ _ _ _ _ Hblock) in Hbody.
    destruct (outcome w) as [parsedResponse | status message].
    + injection Hbody as Hstep <- _. revert Hstep.
      unfold _makeRequest_validate. repeat case_match; simpl; done.
    + injection Hbody as Hstep <- _. revert Hstep.
      unfold _makeRequest_catch. repeat case_match; simpl; done.
  - rewrite (_makeRequest_body_unselected _ _ _ _ _ _ _ Hblock) in Hbody.
    by injection Hbody as <- _ _.
Qed.

(** X6: with retries enabled, [request404Count] is back at zero
    whenever the call resolves to something other than [undefined]:
    the payload, [null], or the rejection on a [null] body. *)
Lemma _makeRequest_exit_resets (script : list World) :
  forall (this this' : DiscoveryProvider)
         (requestObj requestObj' : Request.RequestParams)
         (attemptedRetries : Z) (result : Result),
  _makeRequest script this requestObj true attemptedRetries
  = Some (result, this', requestObj') ->
  result ≠ ReturnsUndefined ->
  request404Count this' = 0.
Proof.
  induction script as [| w script IH];
    intros this this' requestObj requestObj' attemptedRetries result Hrun Hres.
  - discriminate.
  - simpl in Hrun.
    destruct (_makeRequest_body w this requestObj true attemptedRetries)
      as [[[r | n] this1] requestObj1] eqn:Hbody.
    + injection Hrun as -> -> ->. by eapply _makeRequest_body_exit_resets.
    + by eapply IH.
Qed.

(** * Further properties of the request path *)

(** The selector calls of one selection step, whatever its result. *)
Lemma getHealthy_trace (this this1 : DiscoveryProvider) (probe : option string)
    (attemptedRetries : Z) (result : Completion string) :
  getHealthyDiscoveryProviderEndpoint this probe attemptedRetries = (result, this1) ->
  calls this1 = calls this ++
    (if bool_decide (selectionRequestRetries this < attemptedRetries)
     then [EvAddUnhealthy (discoveryProviderEndpoint this); EvClearCached; EvSelect probe]
     else []).
Proof.
  unfold getHealthyDiscoveryProviderEndpoint.
  case_bool_decide; simpl.
  - intros Hrun.
    destruct probe as [e |]; [case_bool_decide |];
      injection Hrun as _ <-; simpl; by rewrite <- !app_assoc.
  - intros Hrun.
    destruct (discoveryProviderEndpoint this) as [e |]; [case_bool_decide |];
      injection Hrun as _ <-; by rewrite app_nil_r.
Qed.

Lemma reselection_counts (this : DiscoveryProvider) (probe : option string)
    (attemptedRetries : Z) :
  let sel :=
    if bool_decide (selectionRequestRetries this < attemptedRetries)
    then [EvAddUnhealthy (discoveryProviderEndpoint this); EvClearCached; EvSelect probe]
    else [] in
  count_events is_request sel = 0 /\ count_events is_not_found sel = 0.
Proof. simpl. by case_bool_decide. Qed.

(** ** Calls without retries and without an endpoint *)

(** Validation with retries disabled always returns, and only the
    successful ways out write [request404Count]. *)
Lemma _makeRequest_validate_no_retry (this : DiscoveryProvider)
    (attemptedRetries : Z) (parsedResponse : ParsedResponse) :
  _makeRequest_validate this false attemptedRetries parsedResponse
  = (Return ReturnsNull, this) \/
  exists result,
    _makeRequest_validate this false attemptedRetries parsedResponse
    = (Return result, set_request404Count 0 this) /\
    result ≠ ReturnsNull /\ result ≠ ReturnsUndefined.
Proof.
  unfold _makeRequest_validate.
  destruct (notInRegressedMode this && Js.truthy (_getBlocksBehind this parsedResponse));
    [by left |].
  destruct (notInRegressedMode this && Js.truthy (_getPlaysSlotsBehind this parsedResponse));
    [by left |].
  right. destruct parsedResponse as [r |]; eexists; by split.
Qed.

(** X1: [getTracksByHandleAndSlug] makes a single attempt.  Whatever the
    world answers, the call is over after one invocation with at most
    one request issued and no not-found answer counted; when it resolves
    to [null] or [undefined], [request404Count] is what it was; and a
    failed exchange, 404 included, resolves to one of these two. *)
Theorem X1_getTracksByHandleAndSlug_single_attempt
    (w : World) (script : list World) (this : DiscoveryProvider)
    (requestObj : Request.RequestParams) :
  exists result this' requestObj' new,
    getTracksByHandleAndSlug (w :: script) this requestObj
    = Some (result, this', requestObj') /\
    calls this' = calls this ++ new /\
    count_events is_request new <= 1 /\
    count_events is_not_found new = 0 /\
    (result = ReturnsNull \/ result = ReturnsUndefined ->
     request404Count this' = request404Count this) /\
    (forall status message,
       outcome w = Axios.Fails status message ->
       result = ReturnsNull \/ result = ReturnsUndefined).
Proof.
  unfold getTracksByHandleAndSlug. simpl.
  destruct (getHealthyDiscoveryProviderEndpoint this (probe w) 0)
    as [[e | message] this1] eqn:Hsel.
  - pose proof (getHealthy_trace _ _ _ _ _ Hsel) as Hcalls1.
    destruct (reselection_counts this (probe w) 0) as [Hsel1 Hsel2].
    remember (if bool_decide (selectionRequestRetries this < 0)
              then [EvAddUnhealthy (discoveryProviderEndpoint this); EvClearCached;
                    EvSelect (probe w)]
              else []) as sel eqn:Hseldef.
    clear Hseldef.
    destruct (_makeRequest_select_normal _ _ _ _ _ Hsel)
      as (this2 & Hblock & Hep & Hcalls2 & H404 & _).
    generalize dependent (if bool_decide (discoveryProviderEndpoint this = Some e)
                          then 0 else 0).
    intros issued Hblock.
    rewrite (_makeRequest_body_selected _ _ _ _ _ _ _ Hblock).
    set (this3 := record_call (EvRequest (discoveryProviderEndpoint this2) issued) this2).
    assert (Hcalls3 : calls this3
                      = calls this ++ sel ++ [EvRequest (discoveryProviderEndpoint this2) issued]).
    { subst this3. simpl. by rewrite Hcalls2, Hcalls1, <- app_assoc. }
    assert (Hcount : count_events is_request
                       (sel ++ [EvRequest (discoveryProviderEndpoint this2) issued]) <= 1 /\
                     count_events is_not_found
                       (sel ++ [EvRequest (discoveryProviderEndpoint this2) issued]) = 0).
    { rewrite !count_events_app, Hsel1, Hsel2. by split. }
    destruct Hcount as [Hreq Hnf].
    destruct (outcome w) as [parsedResponse | status message].
    + destruct (_makeRequest_validate_no_retry this3 issued parsedResponse)
        as [-> | (result & -> & Hnull & Hundef)]; simpl.
      * eexists _, _, _, _. split; [reflexivity |]. split; [exact Hcalls3 |].
        split; [done |]. split; [done |]. split; [by intros _ | discriminate].
      * eexists _, _, _, _. split; [reflexivity |]. split; [exact Hcalls3 |].
        split; [done |]. split; [done |]. split; [by intros [? | ?] | discriminate].
    + unfold _makeRequest_catch. simpl.
      eexists _, _, _, _. split; [reflexivity |]. split; [exact Hcalls3 |].
      split; [done |]. split; [done |]. split; [by intros _ |]. intros; by left.
  - pose proof (getHealthy_trace _ _ _ _ _ Hsel) as Hcalls1.
    destruct (reselection_counts this (probe w) 0) as [Hsel1 Hsel2].
    destruct (getHealthy_frame _ _ _ _ _ Hsel) as (_ & H404 & _).
    rewrite (_makeRequest_body_unselected _ _ _ _ _ _ _
               (_makeRequest_select_throw _ _ _ _ _ Hsel)).
    eexists _, _, _, _. split; [reflexivity |]. split; [exact Hcalls1 |].
    rewrite Hsel1, Hsel2. split; [done |]. split; [done |]. split; [done |].
    intros; by right.
Qed.

(** A top-level call on an instance without endpoint. *)
Lemma request_unset_endpoint (w : World) (script : list World) (this : DiscoveryProvider)
    (requestObj : Request.RequestParams) :
  Js.truthy_string (discoveryProviderEndpoint this) = false ->
  0 <= selectionRequestRetries this ->
  _makeRequest (w :: script) this requestObj true 0
  = Some (ReturnsUndefined, this, requestObj).
Proof.
  intros Hunset Hbudget. simpl.
  assert (Hsel : getHealthyDiscoveryProviderEndpoint this (probe w) 0
                 = (Throw (Some ALL_UNHEALTHY), this)).
  { unfold getHealthyDiscoveryProviderEndpoint.
    rewrite bool_decide_eq_false_2 by lia.
    destruct (discoveryProviderEndpoint this) as [e |]; [| done].
    simpl in Hunset. by rewrite Hunset. }
  by rewrite (_makeRequest_body_unselected _ _ _ _ _ _ _
                (_makeRequest_select_throw _ _ _ _ _ Hsel)).
Qed.

(** X2: an instance whose endpoint is unset (or empty) does not recover
    through requests.  With a non-negative retry budget a call resolves
    to [undefined] at once: no request is issued, the selector is not
    asked, and the instance is left exactly as it was. *)
Theorem X2_unset_endpoint_resolves_to_undefined
    (w : World) (script : list World) (this : DiscoveryProvider)
    (requestObj : Request.RequestParams) :
  Js.truthy_string (discoveryProviderEndpoint this) = false ->
  0 <= selectionRequestRetries this ->
  request (w :: script) this requestObj = Some (ReturnsUndefined, this, requestObj).
Proof.
  intros Hunset Hbudget. unfold request. by apply request_unset_endpoint.
Qed.

Lemma X2_witness :
  request [Examples.answers Examples.lagging]
    (constructor 15 3000 None None None None Js.TUndefined None) Examples.get_users
  = Some (ReturnsUndefined,
          constructor 15 3000 None None None None Js.TUndefined None,
          Examples.get_users).
Proof.
  apply (X2_unset_endpoint_resolves_to_undefined (Examples.answers Examples.lagging) []
           (constructor 15 3000 None None None None Js.TUndefined None) Examples.get_users).
  - reflexivity.
  - vm_compute. discriminate.
Defined.

(** ** Retries on one endpoint and failover *)

(** Selection at or below the retry budget with an endpoint in use:
    nothing is asked of the selector. *)
Lemma _makeRequest_select_keep (this : DiscoveryProvider) (probe : option string)
    (attemptedRetries : Z) (e : string) :
  discoveryProviderEndpoint this = Some e -> e ≠ "" ->
  attemptedRetries <= selectionRequestRetries this ->
  _makeRequest_select this probe attemptedRetries = (Normal attemptedRetries, this).
Proof.
  intros Hep Hne Hbudget.
  unfold _makeRequest_select, getHealthyDiscoveryProviderEndpoint.
  rewrite bool_decide_eq_false_2 by lia.
  rewrite Hep, (bool_decide_eq_true_2 (e ≠ "")) by done.
  rewrite Hep. by rewrite bool_decide_eq_false_2 by (by intros ?).
Qed.

(** One invocation that meets a failure other than not-found, or a stale
    response, while the budget for the endpoint lasts: one request to the
    endpoint in use, then a retry with the attempt count one higher. *)
Lemma _makeRequest_body_unusable (w : World) (this : DiscoveryProvider)
    (requestObj : Request.RequestParams) (attemptedRetries : Z) (e : string) :
  discoveryProviderEndpoint this = Some e -> e ≠ "" ->
  attemptedRetries <= selectionRequestRetries this ->
  answers_unusable this w ->
  exists requestObj',
    _makeRequest_body w this requestObj true attemptedRetries
    = (Recurse (attemptedRetries + 1),
       record_call (EvRequest (Some e) attemptedRetries) this, requestObj').
Proof.
  intros Hep Hne Hbudget Hw.
  rewrite (_makeRequest_body_selected _ _ _ _ _ _ _
             (_makeRequest_select_keep this (probe w) attemptedRetries e Hep Hne Hbudget)).
  rewrite Hep. unfold answers_unusable in Hw.
  destruct (outcome w) as [parsedResponse | status message].
  - eexists.
    assert (Hval : _makeRequest_validate
                     (record_call (EvRequest (Some e) attemptedRetries) this)
                     true attemptedRetries parsedResponse
                   = (Recurse (attemptedRetries + 1),
                      record_call (EvRequest (Some e) attemptedRetries) this)).
    { unfold _makeRequest_validate.
      change (notInRegressedMode (record_call (EvRequest (Some e) attemptedRetries) this))
        with (notInRegressedMode this).
      change (_getBlocksBehind (record_call (EvRequest (Some e) attemptedRetries) this)
                parsedResponse)
        with (_getBlocksBehind this parsedResponse).
      change (_getPlaysSlotsBehind (record_call (EvRequest (Some e) attemptedRetries) this)
                parsedResponse)
        with (_getPlaysSlotsBehind this parsedResponse).
      destruct (notInRegressedMode this); [| done]. simpl in Hw |- *.
      destruct (Js.truthy (_getBlocksBehind this parsedResponse)); [done |].
      simpl in Hw. by rewrite Hw. }
    by rewrite Hval.
  - eexists. unfold _makeRequest_catch.
    by rewrite (bool_decide_eq_false_2 (thrown_message status message = _)) by done.
Qed.

(** A run of such answers that fits in the budget: every request goes to
    the same endpoint, the selector is never asked and nothing else in
    the instance changes. *)
Lemma _makeRequest_unusable_run (fails : list World) :
  forall (rest : list World) (this : DiscoveryProvider)
         (requestObj : Request.RequestParams) (attemptedRetries : Z) (e : string),
  discoveryProviderEndpoint this = Some e -> e ≠ "" ->
  attemptedRetries + Z.of_nat (length fails) <= selectionRequestRetries this + 1 ->
  Forall (answers_unusable this) fails ->
  exists requestObj',
    _makeRequest (fails ++ rest) this requestObj true attemptedRetries
    = _makeRequest rest
        (record_calls (attempts_on e attemptedRetries (length fails)) this)
        requestObj' true (attemptedRetries + Z.of_nat (length fails)).
Proof.
  induction fails as [| w fails IH]; intros rest this requestObj attemptedRetries e
    Hep Hne Hbudget Hall.
  - exists requestObj. simpl. by rewrite Z.add_0_r.
  - apply Forall_cons in Hall as [Hw Hall]. simpl in Hbudget.
    destruct (_makeRequest_body_unusable w this requestObj attemptedRetries e)
      as [requestObj1 Hbody]; [done | done | lia | done |].
    destruct (IH rest (record_call (EvRequest (Some e) attemptedRetries) this)
                requestObj1 (attemptedRetries + 1) e)
      as [requestObj' Hrun]; [done | done | simpl; lia | exact Hall |].
    exists requestObj'. simpl. rewrite Hbody, Hrun.
    f_equal.
    + unfold record_calls, attempts_on. simpl. rewrite Z.add_0_r.
      f_equal. rewrite <- seq_shift, <- !list_fmap_compose.
      apply list_fmap_ext. intros i x _. simpl. f_equal. lia.
    + lia.
Qed.

Lemma record_calls_calls (evs : list Event) :
  forall this : DiscoveryProvider,
  calls (record_calls evs this) = calls this ++ evs /\
  discoveryProviderEndpoint (record_calls evs this) = discoveryProviderEndpoint this /\
  serviceSelector (record_calls evs this) = serviceSelector this /\
  request404Count (record_calls evs this) = request404Count this /\
  selectionRequestRetries (record_calls evs this) = selectionRequestRetries this /\
  ethContracts (record_calls evs this) = ethContracts this /\
  unhealthyBlockDiff (record_calls evs this) = unhealthyBlockDiff this /\
  unhealthySlotDiffPlays (record_calls evs this) = unhealthySlotDiffPlays this.
Proof.
  induction evs as [| ev evs IH]; intros this.
  - simpl. by rewrite app_nil_r.
  - destruct (IH (record_call ev this)) as (H1 & H2 & H3 & H4 & H5 & H6 & H7 & H8).
    unfold record_calls in *. simpl. rewrite H1, H2, H3, H4, H5, H6, H7, H8. simpl.
    by rewrite <- app_assoc.
Qed.

(** Selection past the retry budget: the endpoint in use joins the
    unhealthy set, and the answer is the one of the probe round. *)
Lemma getHealthy_reselects (this : DiscoveryProvider) (probe : option string)
    (attemptedRetries : Z) :
  selectionRequestRetries this < attemptedRetries ->
  exists this1,
    getHealthyDiscoveryProviderEndpoint this probe attemptedRetries
    = (match probe with
       | Some e => if bool_decide (e ≠ "") then Normal e else Throw (Some ALL_UNHEALTHY)
       | None => Throw (Some ALL_UNHEALTHY)
       end, this1) /\
    discoveryProviderEndpoint this ∈ Selector.unhealthySet (serviceSelector this1) /\
    Selector.unhealthySet (serviceSelector this) ⊆ Selector.unhealthySet (serviceSelector this1).
Proof.
  intros Hpast. unfold getHealthyDiscoveryProviderEndpoint.
  rewrite bool_decide_eq_true_2 by done. simpl.
  destruct probe as [e |]; [case_bool_decide |];
    (eexists; split; [reflexivity |]; simpl; split; set_solver).
Qed.

(** The first block of [_makeRequest] leaves the selector as selection
    left it. *)
Lemma _makeRequest_select_selector (this this1 this2 : DiscoveryProvider)
    (probe : option string) (attemptedRetries : Z)
    (result : Completion string) (issued : Completion Z) :
  getHealthyDiscoveryProviderEndpoint this probe attemptedRetries = (result, this1) ->
  _makeRequest_select this probe attemptedRetries = (issued, this2) ->
  serviceSelector this2 = serviceSelector this1.
Proof.
  intros Hsel. unfold _makeRequest_select. rewrite Hsel.
  destruct result as [e | message]; [case_bool_decide |]; by intros [= _ <-].
Qed.

(** A response that passes validation is returned, and the 404 count
    goes back to zero. *)
Lemma _makeRequest_validate_usable (this0 this : DiscoveryProvider) (retry : bool)
    (attemptedRetries : Z) (r : ResponseObj) :
  ethContracts this0 = ethContracts this ->
  unhealthyBlockDiff this0 = unhealthyBlockDiff this ->
  unhealthySlotDiffPlays this0 = unhealthySlotDiffPlays this ->
  notInRegressedMode this
  && (Js.truthy (_getBlocksBehind this (Some r))
      || Js.truthy (_getPlaysSlotsBehind this (Some r))) = false ->
  _makeRequest_validate this0 retry attemptedRetries (Some r)
  = (Return (Data (data r)), set_request404Count 0 this0).
Proof.
  intros Heth Hblk Hslot Hok.
  unfold _makeRequest_validate, notInRegressedMode, _getBlocksBehind, _getPlaysSlotsBehind in *.
  rewrite Heth, Hblk, Hslot.
  destruct (match ethContracts this with Some c => negb (isInRegressedMode c) | None => false end);
    [| done].
  simpl in Hok |- *. apply orb_false_iff in Hok as [-> ->]. done.
Qed.

(** X3: failures other than not-found, and stale responses, are retried
    on the endpoint in use [selectionRequestRetries + 1] times and no
    more.  If the reselection that follows finds no endpoint, the call
    resolves to [undefined]; by then the endpoint has been marked
    unhealthy and [request404Count] has not moved. *)
Theorem X3_retry_budget_then_no_endpoint
    (fails rest : list World) (w : World) (this : DiscoveryProvider)
    (requestObj : Request.RequestParams) (e : string) :
  discoveryProviderEndpoint this = Some e -> e ≠ "" ->
  0 <= selectionRequestRetries this ->
  Z.of_nat (length fails) = selectionRequestRetries this + 1 ->
  Forall (answers_unusable this) fails ->
  Js.truthy_string (probe w) = false ->
  exists this' requestObj',
    request (fails ++ w :: rest) this requestObj
    = Some (ReturnsUndefined, this', requestObj') /\
    calls this' = calls this ++ attempts_on e 0 (length fails)
                  ++ [EvAddUnhealthy (Some e); EvClearCached; EvSelect (probe w)] /\
    Some e ∈ Selector.unhealthySet (serviceSelector this') /\
    discoveryProviderEndpoint this' = Some e /\
    request404Count this' = request404Count this.
Proof.
  intros Hep Hne Hbudget Hlen Hall Hprobe.
  destruct (_makeRequest_unusable_run fails (w :: rest) this requestObj 0 e)
    as [requestObj1 Hrun]; [done | done | lia | done |].
  unfold request. rewrite Hrun. clear Hrun.
  destruct (record_calls_calls (attempts_on e 0 (length fails)) this)
    as (Hc & Hep1 & Hsel1 & H404 & Hret & _).
  set (this1 := record_calls (attempts_on e 0 (length fails)) this) in *.
  destruct (getHealthy_reselects this1 (probe w) (0 + Z.of_nat (length fails)))
    as (this2 & Hsel & Hin & _); [lia |].
  assert (Hthrow : getHealthyDiscoveryProviderEndpoint this1 (probe w)
                     (0 + Z.of_nat (length fails))
                   = (Throw (Some ALL_UNHEALTHY), this2)).
  { rewrite Hsel. destruct (probe w) as [e' |]; [| done].
    simpl in Hprobe. by rewrite Hprobe. }
  simpl.
  rewrite (_makeRequest_body_unselected _ _ _ _ _ _ _
             (_makeRequest_select_throw _ _ _ _ _ Hthrow)).
  exists this2, requestObj1. split; [done |].
  pose proof (getHealthy_trace _ _ _ _ _ Hthrow) as Htrace.
  destruct (getHealthy_frame _ _ _ _ _ Hthrow) as (Hep2 & H4042 & _).
  rewrite bool_decide_eq_true_2 in Htrace by lia.
  rewrite Htrace, Hc, Hep1, Hep, <- app_assoc.
  split; [done |]. split; [by rewrite <- Hep, <- Hep1 |].
  split; [by rewrite Hep2, Hep1 | by rewrite H4042].
Qed.

Lemma X3_witness :
  exists this' requestObj',
    request (replicate 6 (Scenarios.server_error None) ++ [Scenarios.server_error None])
      Examples.fresh Examples.get_users
    = Some (ReturnsUndefined, this', requestObj') /\
    calls this' = calls Examples.fresh ++ attempts_on "https://dn1.example" 0 6
                  ++ [EvAddUnhealthy (Some "https://dn1.example"); EvClearCached;
                      EvSelect None] /\
    Some "https://dn1.example" ∈ Selector.unhealthySet (serviceSelector this') /\
    discoveryProviderEndpoint this' = Some "https://dn1.example" /\
    request404Count this' = request404Count Examples.fresh.
Proof.
  apply (X3_retry_budget_then_no_endpoint
           (replicate 6 (Scenarios.server_error None)) [] (Scenarios.server_error None)
           Examples.fresh Examples.get_users "https://dn1.example").
  - reflexivity.
  - discriminate.
  - vm_compute. discriminate.
  - reflexivity.
  - repeat constructor; vm_compute; discriminate.
  - reflexivity.
Defined.

(** X4: failover.  Once the endpoint in use has used up its
    [selectionRequestRetries + 1] attempts, the next invocation marks it
    unhealthy and reselects; if the probe round picks another endpoint
    and that one answers with a response that passes validation, the
    call returns its payload from the first request made there, with the
    attempt count back at [0]; from then on the other endpoint is the
    one in use and [request404Count] is zero. *)
Theorem X4_failover_after_retry_budget
    (fails rest : list World) (w : World) (this : DiscoveryProvider)
    (requestObj : Request.RequestParams) (e e2 : string) (r : ResponseObj) :
  discoveryProviderEndpoint this = Some e -> e ≠ "" ->
  0 <= selectionRequestRetries this ->
  Z.of_nat (length fails) = selectionRequestRetries this + 1 ->
  Forall (answers_unusable this) fails ->
  probe w = Some e2 -> e2 ≠ "" -> e2 ≠ e ->
  answers_usable this w r ->
  exists this' requestObj',
    request (fails ++ w :: rest) this requestObj
    = Some (Data (data r), this', requestObj') /\
    calls this' = calls this ++ attempts_on e 0 (length fails)
                  ++ [EvAddUnhealthy (Some e); EvClearCached; EvSelect (Some e2);
                      EvRequest (Some e2) 0] /\
    Some e ∈ Selector.unhealthySet (serviceSelector this') /\
    discoveryProviderEndpoint this' = Some e2 /\
    request404Count this' = 0.
Proof.
  intros Hep Hne Hbudget Hlen Hall Hprobe Hne2 Hother [Hout Hok].
  destruct (_makeRequest_unusable_run fails (w :: rest) this requestObj 0 e)
    as [requestObj1 Hrun]; [done | done | lia | done |].
  unfold request. rewrite Hrun. clear Hrun.
  destruct (record_calls_calls (attempts_on e 0 (length fails)) this)
    as (Hc & Hep1 & Hsel1 & H404 & Hret & Heth & Hblk & Hslot).
  set (this1 := record_calls (attempts_on e 0 (length fails)) this) in *.
  destruct (getHealthy_reselects this1 (probe w) (0 + Z.of_nat (length fails)))
    as (this2 & Hsel & Hin & _); [lia |].
  rewrite Hprobe, (bool_decide_eq_true_2 (e2 ≠ "")) in Hsel by done.
  rewrite <- Hprobe in Hsel.
  pose proof (getHealthy_trace _ _ _ _ _ Hsel) as Htrace.
  rewrite bool_decide_eq_true_2 in Htrace by lia.
  destruct (_makeRequest_select_normal _ _ _ _ _ Hsel)
    as (this3 & Hblock & Hep3 & Hcalls3 & _ & _ & _ & Heth3 & Hblk3 & Hslot3).
  pose proof (_makeRequest_select_selector _ _ _ _ _ _ _ Hsel Hblock) as Hselector.
  rewrite Hep1, Hep in Hblock.
  rewrite (bool_decide_eq_false_2 (Some e = Some e2)) in Hblock by congruence.
  simpl.
  rewrite (_makeRequest_body_selected _ _ _ _ _ _ _ Hblock), Hout, Hep3.
  rewrite (_makeRequest_validate_usable _ this); simpl; [| congruence | congruence | congruence | done].
  eexists _, _. split; [reflexivity |]. simpl.
  rewrite Hcalls3, Htrace, Hc, Hep1, Hep, Hprobe, <- !app_assoc. simpl.
  split; [done |]. split; [| done].
  rewrite Hselector. by rewrite <- Hep, <- Hep1.
Qed.

Lemma X4_witness :
  exists this' requestObj',
    request (replicate 6 (Scenarios.server_error None)
             ++ [Scenarios.answers_from (Some "https://dn2.example") Scenarios.healthy])
      Examples.fresh Examples.get_users
    = Some (Data "payload", this', requestObj') /\
    calls this' = calls Examples.fresh ++ attempts_on "https://dn1.example" 0 6
                  ++ [EvAddUnhealthy (Some "https://dn1.example"); EvClearCached;
                      EvSelect (Some "https://dn2.example");
                      EvRequest (Some "https://dn2.example") 0] /\
    Some "https://dn1.example" ∈ Selector.unhealthySet (serviceSelector this') /\
    discoveryProviderEndpoint this' = Some "https://dn2.example" /\
    request404Count this' = 0.
Proof.
  apply (X4_failover_after_retry_budget
           (replicate 6 (Scenarios.server_error None)) []
           (Scenarios.answers_from (Some "https://dn2.example") Scenarios.healthy)
           Examples.fresh Examples.get_users "https://dn1.example" "https://dn2.example"
           Scenarios.healthy).
  - reflexivity.
  - discriminate.
  - vm_compute. discriminate.
  - reflexivity.
  - repeat constructor; vm_compute; discriminate.
  - reflexivity.
  - discriminate.
  - discriminate.
  - split; reflexivity.
Defined.

(** ** What validation accepts *)



(** X8: a response whose parsed body is [null].  Outside regressed mode,
    with a non-zero block threshold, the body counts as stale: the
    invocation retries with the attempt count one higher (or answers
    [null] when retries are disabled) and [request404Count] is not
    touched.  When the staleness checks are suppressed (regressed mode,
    or no [ethContracts]), the call resets [request404Count] and then
    rejects with a [TypeError] on reading [data]. *)
Theorem X8_null_body_stale_or_rejected
    (w : World) (script : list World) (this this1 : DiscoveryProvider)
    (requestObj : Request.RequestParams) (retry : bool) (attemptedRetries : Z)
    (e : string) :
  getHealthyDiscoveryProviderEndpoint this (probe w) attemptedRetries = (Normal e, this1) ->
  outcome w = Axios.Responds None ->
  (notInRegressedMode this = true -> unhealthyBlockDiff this ≠ 0 ->
   exists this' requestObj' issued,
     _makeRequest_body w this requestObj retry attemptedRetries
     = (if retry then Recurse (issued + 1) else Return ReturnsNull, this', requestObj') /\
     request404Count this' = request404Count this)
  /\
  (notInRegressedMode this = false ->
   exists this' requestObj',
     _makeRequest (w :: script) this requestObj retry attemptedRetries
     = Some (Throws (Some "TypeError"), this', requestObj') /\
     request404Count this' = 0).
Proof.
  intros Hsel Hout.
  destruct (_makeRequest_select_normal _ _ _ _ _ Hsel)
    as (this2 & Hblock & _ & _ & H404 & _ & _ & Heth & Hblk & _).
  generalize dependent (if bool_decide (discoveryProviderEndpoint this = Some e)
                        then attemptedRetries else 0).
  intros issued Hblock.
  split.
  - intros Hmode Hnz.
    rewrite (_makeRequest_body_selected _ _ _ _ _ _ _ Hblock), Hout.
    unfold _makeRequest_validate.
    change (notInRegressedMode (record_call ?ev this2)) with (notInRegressedMode this2).
    assert (notInRegressedMode this2 = true) as ->.
    { unfold notInRegressedMode in *. by rewrite Heth. }
    simpl. rewrite Hblk, (bool_decide_eq_true_2 (unhealthyBlockDiff this ≠ 0)) by done.
    destruct retry; simpl; eexists _, _, issued; by split.
  - intros Hmode. simpl.
    rewrite (_makeRequest_body_selected _ _ _ _ _ _ _ Hblock), Hout.
    unfold _makeRequest_validate.
    change (notInRegressedMode (record_call ?ev this2)) with (notInRegressedMode this2).
    assert (notInRegressedMode this2 = false) as ->.
    { unfold notInRegressedMode in *. by rewrite Heth. }
    simpl. eexists _, _. by split.
Qed.

Lemma X8_witness :
  (exists this' requestObj' issued,
     _makeRequest_body {| probe := None; outcome := Axios.Responds None |}
       Examples.fresh Examples.get_users true 0
     = (Recurse (issued + 1), this', requestObj') /\
     request404Count this' = request404Count Examples.fresh) /\
  (exists this' requestObj',
     _makeRequest [{| probe := None; outcome := Axios.Responds None |}]
       Examples.regressed Examples.get_users true 0
     = Some (Throws (Some "TypeError"), this', requestObj') /\
     request404Count this' = 0).
Proof.
  split.
  - refine (proj1 (X8_null_body_stale_or_rejected
                     {| probe := None; outcome := Axios.Responds None |} []
                     Examples.fresh Examples.fresh Examples.get_users true 0
                     "https://dn1.example" _ _) _ _);
      try reflexivity.
    vm_compute. discriminate.
  - refine (proj2 (X8_null_body_stale_or_rejected
                     {| probe := None; outcome := Axios.Responds None |} []
                     Examples.regressed Examples.regressed Examples.get_users true 0
                     "https://dn1.example" _ _) _);
      reflexivity.
Defined.

(** ** The request that goes out *)

Lemma sanitize_idemp (queryParams : gmap string Request.value) :
  sanitize (sanitize queryParams) = sanitize queryParams.
Proof.
  apply sanitize_id. intros k v. rewrite sanitize_lookup.
  destruct (queryParams !! k) as [v' |]; [| done].
  destruct (Request.is_nullish v') eqn:Hv; [done |]. by intros [= <-].
Qed.

(** X9: the in-place edit of [_createDiscProvRequest] is idempotent.
    Building again from the descriptor an earlier build left behind, as
    every retry does, leaves the descriptor as it is, whatever endpoint
    the retry goes to; and for the same endpoint it yields the same
    axios request.  The instance may have changed in between, as long as
    the current user and the default timeout are the same. *)
Theorem X9_createDiscProvRequest_idempotent
    (this this' : DiscoveryProvider) (requestObj : Request.RequestParams)
    (discoveryProviderEndpoint discoveryProviderEndpoint' : option string) :
  currentUserId this' = currentUserId this ->
  selectionRequestTimeout this' = selectionRequestTimeout this ->
  let built := _createDiscProvRequest this requestObj discoveryProviderEndpoint in
  let rebuilt := _createDiscProvRequest this' built.2 discoveryProviderEndpoint' in
  rebuilt.2 = built.2 /\
  (discoveryProviderEndpoint' = discoveryProviderEndpoint -> rebuilt.1 = built.1).
Proof.
  intros Huid Htimeout built rebuilt. subst built rebuilt.
  unfold _createDiscProvRequest. cbn [fst snd]. rewrite Huid, Htimeout.
  destruct requestObj as [queryParams endpoint timeout method urlParams headers data].
  cbn [Request.queryParams Request.endpoint Request.timeout Request.method
       Request.urlParams Request.headers Request.data].
  assert (Hq : sanitize <$> (sanitize <$> queryParams) = sanitize <$> queryParams).
  { destruct queryParams as [m |]; [| done]. simpl. by rewrite sanitize_idemp. }
  rewrite Hq.
  split; [| intros ->];
    (destruct (currentUserId this) as [uid |]; [case_bool_decide |];
     destruct headers as [h |]; simpl; by rewrite ?insert_insert_eq).
Qed.

Lemma X9_witness :
  (_createDiscProvRequest
     (record_call (EvRequest (Some "https://dn1.example") 0) Scenarios.signed_in)
     (_createDiscProvRequest Scenarios.signed_in Scenarios.with_headers
        (Some "https://dn1.example")).2
     (Some "https://dn2.example")).2
  = (_createDiscProvRequest Scenarios.signed_in Scenarios.with_headers
       (Some "https://dn1.example")).2.
Proof.
  refine (proj1 (X9_createDiscProvRequest_idempotent Scenarios.signed_in
                   (record_call (EvRequest (Some "https://dn1.example") 0) Scenarios.signed_in)
                   Scenarios.with_headers (Some "https://dn1.example")
                   (Some "https://dn2.example") _ _)); reflexivity.
Defined.

(** X10: the query that is handed to [urlJoin] is the caller's map after
    the edit, and it holds no [undefined] or [null] value: such
    parameters never reach the URL, while every other parameter of the
    descriptor does. *)
Theorem X10_query_without_nullish_values
    (this : DiscoveryProvider) (requestObj : Request.RequestParams)
    (discoveryProviderEndpoint : option string)
    (queryParams : gmap string Request.value) :
  Request.queryParams requestObj = Some queryParams ->
  exists query,
    Axios.query (Axios.url
      (_createDiscProvRequest this requestObj discoveryProviderEndpoint).1) = Some query /\
    Request.queryParams
      (_createDiscProvRequest this requestObj discoveryProviderEndpoint).2 = Some query /\
    (forall k v, query !! k = Some v -> Request.is_nullish v = false) /\
    (forall k v, queryParams !! k = Some v -> Request.is_nullish v = false ->
                 query !! k = Some v) /\
    dom query ⊆ dom queryParams.
Proof.
  intros Hq. exists (sanitize queryParams).
  unfold _createDiscProvRequest. simpl. rewrite Hq. simpl.
  split; [done |]. split; [done |].
  split; [| split].
  - intros k v. rewrite sanitize_lookup.
    destruct (queryParams !! k) as [v' |]; [| done].
    destruct (Request.is_nullish v') eqn:Hv; [done |]. by intros [= <-].
  - intros k v Hk Hv. by rewrite sanitize_lookup, Hk, Hv.
  - intros k. rewrite !elem_of_dom, sanitize_lookup.
    destruct (queryParams !! k) as [v' |]; [by eauto |]. by intros [? ?].
Qed.

Lemma X10_witness :
  exists query,
    Axios.query (Axios.url
      (_createDiscProvRequest Examples.fresh Examples.get_users_optional
         (Some "https://dn1.example")).1) = Some query /\
    Request.queryParams
      (_createDiscProvRequest Examples.fresh Examples.get_users_optional
         (Some "https://dn1.example")).2 = Some query /\
    (forall k v, query !! k = Some v -> Request.is_nullish v = false) /\
    (forall k v,
       (<[ "handle" := Request.Undefined ]> {[ "limit" := Request.Str "10" ]}
          : gmap string Request.value) !! k = Some v ->
       Request.is_nullish v = false -> query !! k = Some v) /\
    dom query ⊆ dom (<[ "handle" := Request.Undefined ]> {[ "limit" := Request.Str "10" ]}
                       : gmap string Request.value).
Proof.
  apply (X10_query_without_nullish_values Examples.fresh Examples.get_users_optional
           (Some "https://dn1.example")).
  reflexivity.
Defined.

(** ** Failover on not-found *)

(** One invocation past the retry budget whose probe round picks another
    endpoint, and that endpoint answers with a response that passes
    validation. *)
Lemma _makeRequest_failover_step (w : World) (rest : list World)
    (this0 this : DiscoveryProvider) (requestObj : Request.RequestParams)
    (attemptedRetries : Z) (e e2 : string) (r : ResponseObj) :
  discoveryProviderEndpoint this = Some e ->
  selectionRequestRetries this < attemptedRetries ->
  ethContracts this = ethContracts this0 ->
  unhealthyBlockDiff this = unhealthyBlockDiff this0 ->
  unhealthySlotDiffPlays this = unhealthySlotDiffPlays this0 ->
  probe w = Some e2 -> e2 ≠ "" -> e2 ≠ e ->
  answers_usable this0 w r ->
  exists this' requestObj',
    _makeRequest (w :: rest) this requestObj true attemptedRetries
    = Some (Data (data r), this', requestObj') /\
    calls this' = calls this ++ [EvAddUnhealthy (Some e); EvClearCached;
                                 EvSelect (Some e2); EvRequest (Some e2) 0] /\
    Some e ∈ Selector.unhealthySet (serviceSelector this') /\
    discoveryProviderEndpoint this' = Some e2 /\
    request404Count this' = 0.
Proof.
  intros Hep Hpast Heth Hblk Hslot Hprobe Hne2 Hother [Hout Hok].
  destruct (getHealthy_reselects this (probe w) attemptedRetries)
    as (this2 & Hsel & Hin & _); [done |].
  rewrite Hprobe, (bool_decide_eq_true_2 (e2 ≠ "")) in Hsel by done.
  rewrite <- Hprobe in Hsel.
  pose proof (getHealthy_trace _ _ _ _ _ Hsel) as Htrace.
  rewrite bool_decide_eq_true_2 in Htrace by done.
  destruct (_makeRequest_select_normal _ _ _ _ _ Hsel)
    as (this3 & Hblock & Hep3 & Hcalls3 & _ & _ & _ & Heth3 & Hblk3 & Hslot3).
  pose proof (_makeRequest_select_selector _ _ _ _ _ _ _ Hsel Hblock) as Hselector.
  rewrite Hep in Hblock.
  rewrite (bool_decide_eq_false_2 (Some e = Some e2)) in Hblock by congruence.
  simpl.
  rewrite (_makeRequest_body_selected _ _ _ _ _ _ _ Hblock), Hout, Hep3.
  rewrite (_makeRequest_validate_usable _ this0); simpl;
    [| congruence | congruence | congruence | done].
  eexists _, _. split; [reflexivity |]. simpl.
  rewrite Hcalls3, Htrace, Hep, Hprobe, <- !app_assoc. simpl.
  split; [done |]. split; [| done].
  rewrite Hselector. by rewrite <- Hep.
Qed.

(** One invocation, within the retry budget, that is answered with
    not-found while the 404 budget lasts. *)
Lemma _makeRequest_body_not_found_keep (w : World) (this : DiscoveryProvider)
    (requestObj : Request.RequestParams) (attemptedRetries : Z) (e : string) :
  discoveryProviderEndpoint this = Some e -> e ≠ "" ->
  attemptedRetries <= selectionRequestRetries this ->
  request404Count this + 1 < maxRequestsForTrue404 this ->
  answers_not_found w ->
  exists requestObj',
    _makeRequest_body w this requestObj true attemptedRetries
    = (Recurse (selectionRequestRetries this + 1),
       record_call (EvNotFound (request404Count this + 1))
         (set_request404Count (request404Count this + 1)
            (record_call (EvRequest (Some e) attemptedRetries) this)),
       requestObj').
Proof.
  intros Hep Hne Hbudget Hleft Hnf.
  rewrite (_makeRequest_body_selected _ _ _ _ _ _ _
             (_makeRequest_select_keep this (probe w) attemptedRetries e Hep Hne Hbudget)).
  unfold answers_not_found in Hnf.
  destruct (outcome w) as [| status message]; [done |].
  rewrite Hnf, _makeRequest_catch_not_found.
  cbn [request404Count maxRequestsForTrue404 selectionRequestRetries record_call
       discoveryProviderEndpoint].
  rewrite (bool_decide_eq_true_2 (request404Count this + 1 < _)) by done.
  rewrite Hep. by eexists.
Qed.

(** X11: a not-found answer with budget left sends the call to another
    endpoint.  The endpoint that answered 404 is marked unhealthy, a
    fresh selection is made, and when the endpoint it picks answers with
    a response that passes validation the call returns that payload from
    its first request there; the other endpoint is now the one in use
    and [request404Count] is back at zero. *)
Theorem X11_not_found_fails_over
    (w1 w2 : World) (rest : list World) (this : DiscoveryProvider)
    (requestObj : Request.RequestParams) (attemptedRetries : Z)
    (e e2 : string) (r : ResponseObj) :
  discoveryProviderEndpoint this = Some e -> e ≠ "" ->
  attemptedRetries <= selectionRequestRetries this ->
  request404Count this + 1 < maxRequestsForTrue404 this ->
  answers_not_found w1 ->
  probe w2 = Some e2 -> e2 ≠ "" -> e2 ≠ e ->
  answers_usable this w2 r ->
  exists this' requestObj',
    _makeRequest (w1 :: w2 :: rest) this requestObj true attemptedRetries
    = Some (Data (data r), this', requestObj') /\
    calls this' = calls this ++
      [EvRequest (Some e) attemptedRetries; EvNotFound (request404Count this + 1);
       EvAddUnhealthy (Some e); EvClearCached; EvSelect (Some e2);
       EvRequest (Some e2) 0] /\
    Some e ∈ Selector.unhealthySet (serviceSelector this') /\
    discoveryProviderEndpoint this' = Some e2 /\
    request404Count this' = 0.
Proof.
  intros Hep Hne Hbudget Hleft Hnf Hprobe Hne2 Hother Husable.
  destruct (_makeRequest_body_not_found_keep w1 this requestObj attemptedRetries e)
    as [requestObj1 Hbody]; [done | done | done | done | done |].
  destruct (_makeRequest_failover_step w2 rest this
              (record_call (EvNotFound (request404Count this + 1))
                 (set_request404Count (request404Count this + 1)
                    (record_call (EvRequest (Some e) attemptedRetries) this)))
              requestObj1 (selectionRequestRetries this + 1) e e2 r)
    as (this' & requestObj' & Hrun & Hcalls & Hin & Hep' & Hzero);
    [done | simpl; lia | done | done | done | done | done | done | done |].
  exists this', requestObj'.
  change (_makeRequest (w1 :: w2 :: rest) this requestObj true attemptedRetries)
    with (match _makeRequest_body w1 this requestObj true attemptedRetries with
          | (Return r, this, requestObj) => Some (r, this, requestObj)
          | (Recurse n, this, requestObj) =>
              _makeRequest (w2 :: rest) this requestObj true n
          end).
  rewrite Hbody, Hrun. split; [done |].
  rewrite Hcalls. simpl. rewrite <- !app_assoc. simpl. by repeat split.
Qed.

Lemma X11_witness :
  exists this' requestObj',
    _makeRequest
      [Examples.not_found None;
       Scenarios.answers_from (Some "https://dn2.example") Scenarios.healthy]
      Examples.fresh Examples.get_users true 0
    = Some (Data "payload", this', requestObj') /\
    calls this' = calls Examples.fresh ++
      [EvRequest (Some "https://dn1.example") 0; EvNotFound (request404Count Examples.fresh + 1);
       EvAddUnhealthy (Some "https://dn1.example"); EvClearCached;
       EvSelect (Some "https://dn2.example");
       EvRequest (Some "https://dn2.example") 0] /\
    Some "https://dn1.example" ∈ Selector.unhealthySet (serviceSelector this') /\
    discoveryProviderEndpoint this' = Some "https://dn2.example" /\
    request404Count this' = 0.
Proof.
  apply (X11_not_found_fails_over (Examples.not_found None)
           (Scenarios.answers_from (Some "https://dn2.example") Scenarios.healthy) []
           Examples.fresh Examples.get_users 0 "https://dn1.example" "https://dn2.example"
           Scenarios.healthy).
  - reflexivity.
  - discriminate.
  - vm_compute. discriminate.
  - vm_compute. reflexivity.
  - reflexivity.
  - reflexivity.
  - discriminate.
  - discriminate.
  - split; reflexivity.
Defined.

(** ** Invariants of whole calls, continued *)

Lemma X5_witness :
  exists result this' requestObj',
    _makeRequest
      [Examples.not_found (Some "https://dn2.example");
       Scenarios.server_error None;
       Examples.not_found (Some "https://dn3.example")]
      Examples.fresh Examples.get_users true 0
    = Some (result, this', requestObj') /\
    maxRequestsForTrue404 this' = maxRequestsForTrue404 Examples.fresh /\
    0 <= request404Count this' < maxRequestsForTrue404 Examples.fresh /\
    exists new, calls this' = calls Examples.fresh ++ new /\
                not_found_within (maxRequestsForTrue404 Examples.fresh) new.
Proof.
  eexists _, _, _. split; [vm_compute; reflexivity |].
  eapply (_makeRequest_count_bounded
            [Examples.not_found (Some "https://dn2.example");
             Scenarios.server_error None;
             Examples.not_found (Some "https://dn3.example")]
            Examples.fresh _ Examples.get_users _ true 0 _).
  - vm_compute. split; [discriminate | reflexivity].
  - vm_compute. reflexivity.
Defined.

Lemma X6_witness :
  exists this' requestObj',
    _makeRequest
      [Examples.not_found (Some "https://dn2.example");
       Scenarios.answers_from (Some "https://dn2.example") Scenarios.healthy]
      Examples.fresh Examples.get_users true 0
    = Some (Data "payload", this', requestObj') /\
    request404Count this' = 0.
Proof.
  eexists _, _. split; [vm_compute; reflexivity |].
  eapply (_makeRequest_exit_resets
            [Examples.not_found (Some "https://dn2.example");
             Scenarios.answers_from (Some "https://dn2.example") Scenarios.healthy]
            Examples.fresh _ Examples.get_users _ 0 (Data "payload")).
  - vm_compute. reflexivity.
  - discriminate.
Defined.

Lemma getHealthy_normal_truthy (this this1 : DiscoveryProvider) (probe : option string)
    (attemptedRetries : Z) (e : string) :
  getHealthyDiscoveryProviderEndpoint this probe attemptedRetries = (Normal e, this1) ->
  e ≠ "".
Proof.
  unfold getHealthyDiscoveryProviderEndpoint.
  case_bool_decide; simpl.
  - destruct probe as [e' |]; [case_bool_decide |]; by intros [= <- _].
  - destruct (discoveryProviderEndpoint this) as [e' |]; [case_bool_decide |];
      by intros [= <- _].
Qed.

Lemma requests_have_endpoint_app (evs1 evs2 : list Event) :
  requests_have_endpoint evs1 -> requests_have_endpoint evs2 ->
  requests_have_endpoint (evs1 ++ evs2).
Proof. unfold requests_have_endpoint. intros. by apply Forall_app. Qed.

(** One invocation only ever sends a request to an endpoint that is set
    and not empty. *)
Lemma _makeRequest_body_requests_have_endpoint (w : World) (this this' : DiscoveryProvider)
    (requestObj requestObj' : Request.RequestParams) (retry : bool)
    (attemptedRetries : Z) (step : Step) :
  _makeRequest_body w this requestObj retry attemptedRetries = (step, this', requestObj') ->
  exists new, calls this' = calls this ++ new /\ requests_have_endpoint new.
Proof.
  intros Hbody.
  destruct (getHealthyDiscoveryProviderEndpoint this (probe w) attemptedRetries)
    as [[e | message] this1] eqn:Hsel.
  - pose proof (getHealthy_trace _ _ _ _ _ Hsel) as Hcalls1.
    pose proof (getHealthy_normal_truthy _ _ _ _ _ Hsel) as Hne.
    remember (if bool_decide (selectionRequestRetries this < attemptedRetries)
              then [EvAddUnhealthy (discoveryProviderEndpoint this); EvClearCached;
                    EvSelect (probe w)]
              else []) as sel eqn:Hseldef.
    assert (Hsel_ok : requests_have_endpoint sel).
    { subst sel. case_bool_decide; repeat constructor. }
    clear Hseldef.
    destruct (_makeRequest_select_normal _ _ _ _ _ Hsel)
      as (this2 & Hblock & Hep & Hcalls2 & _).
    generalize dependent (if bool_decide (discoveryProviderEndpoint this = Some e)
                          then attemptedRetries else 0).
    intros issued Hblock.
    rewrite (_makeRequest_body_selected _ _ _ _ _ _ _ Hblock), Hep in Hbody.
    assert (Hreq : requests_have_endpoint [EvRequest (Some e) issued]).
    { repeat constructor. simpl. by rewrite bool_decide_eq_true_2. }
    destruct (outcome w) as [parsedResponse | status message].
    + destruct (_makeRequest_validate _ retry issued parsedResponse)
        as [step1 this3] eqn:Hval.
      injection Hbody as _ <- _.
      apply _makeRequest_validate_calls in Hval as [_ Hcalls3].
      exists (sel ++ [EvRequest (Some e) issued]).
      split; [simpl in Hcalls3; by rewrite Hcalls3, Hcalls2, Hcalls1, <- app_assoc |].
      by apply requests_have_endpoint_app.
    + injection Hbody as _ <- _.
      unfold _makeRequest_catch.
      destruct retry; [destruct (bool_decide (thrown_message status message = Some "404")) |];
        simpl.
      * exists (sel ++ [EvRequest (Some e) issued; EvNotFound (request404Count this2 + 1)]).
        split.
        -- case_bool_decide; simpl; by rewrite Hcalls2, Hcalls1, <- !app_assoc.
        -- apply requests_have_endpoint_app; [done |].
           repeat constructor. simpl. by rewrite bool_decide_eq_true_2.
      * exists (sel ++ [EvRequest (Some e) issued]).
        split; [by rewrite Hcalls2, Hcalls1, <- app_assoc |].
        by apply requests_have_endpoint_app.
      * exists (sel ++ [EvRequest (Some e) issued]).
        split; [by rewrite Hcalls2, Hcalls1, <- app_assoc |].
        by apply requests_have_endpoint_app.
  - pose proof (getHealthy_trace _ _ _ _ _ Hsel) as Hcalls1.
    rewrite (_makeRequest_body_unselected _ _ _ _ _ _ _
               (_makeRequest_select_throw _ _ _ _ _ Hsel)) in Hbody.
    injection Hbody as _ <- _. eexists. split; [exact Hcalls1 |].
    case_bool_decide; repeat constructor.
Qed.

(** X12: no request is ever sent to an endpoint that is [undefined] or
    empty.  Over a whole call, whatever the world answers, every request
    that is recorded went to an endpoint that was set and not empty. *)
Theorem X12_requests_have_endpoint (script : list World) :
  forall (this this' : DiscoveryProvider)
         (requestObj requestObj' : Request.RequestParams) (retry : bool)
         (attemptedRetries : Z) (result : Result),
  _makeRequest script this requestObj retry attemptedRetries
  = Some (result, this', requestObj') ->
  exists new, calls this' = calls this ++ new /\ requests_have_endpoint new.
Proof.
  induction script as [| w script IH];
    intros this this' requestObj requestObj' retry attemptedRetries result Hrun.
  - discriminate.
  - simpl in Hrun.
    destruct (_makeRequest_body w this requestObj retry attemptedRetries)
      as [[[r | n] this1] requestObj1] eqn:Hbody.
    + injection Hrun as _ <- _. by eapply _makeRequest_body_requests_have_endpoint.
    + destruct (_makeRequest_body_requests_have_endpoint _ _ _ _ _ _ _ _ Hbody)
        as (new1 & Hcalls1 & Hnew1).
      destruct (IH _ _ _ _ _ _ _ Hrun) as (new2 & Hcalls2 & Hnew2).
      exists (new1 ++ new2). split; [by rewrite Hcalls2, Hcalls1, <- app_assoc |].
      by apply requests_have_endpoint_app.
Qed.

Lemma X12_witness :
  exists result this' requestObj' new,
    _makeRequest
      [Examples.not_found (Some "https://dn2.example");
       Examples.not_found (Some "")]
      Examples.fresh Examples.get_users true 0
    = Some (result, this', requestObj') /\
    calls this' = calls Examples.fresh ++ new /\ requests_have_endpoint new.
Proof.
  eexists _, _, _. 
  assert (Hrun : _makeRequest
                   [Examples.not_found (Some "https://dn2.example");
                    Examples.not_found (Some "")]
                   Examples.fresh Examples.get_users true 0
                 = Some (ReturnsUndefined,
                         (_makeRequest_body (Examples.not_found (Some ""))
                            (_makeRequest_body (Examples.not_found (Some "https://dn2.example"))
                               Examples.fresh Examples.get_users true 0).1.2
                            Examples.get_users true 6).1.2,
                         Examples.get_users)).
  { vm_compute. reflexivity. }
  destruct (X12_requests_have_endpoint _ _ _ _ _ _ _ _ Hrun) as (new & Hcalls & Hnew).
  exists new. split; [exact Hrun |]. by split.
Defined.

(** ** Token verification and the OAuth message handler *)



(** The handler on a message it acts on, in terms of what the token
    verification gives. *)
Lemma _receiveMessage_accepted
    (verifyToken_request : string -> Request.RequestParams)
    (first_profile : string -> option UserProfile)
    (script : list World) (this : Oauth) (event : MessageEvent) (stored : option string)
    (st tk : string) :
  accepted this event st tk ->
  let before :=
    _clearPopupCheckInterval this
    ++ match activePopupWindow this with
       | Some popup => if closed popup then [] else [CloseWindow (window_id popup)]
       | None => []
       end
    ++ (if bool_decide (stored ≠ Some st) then _surfaceError this "State mismatch." else []) in
  _receiveMessage verifyToken_request first_profile script this event stored =
  match verifyToken verifyToken_request first_profile script (discoveryProvider this) tk with
  | None => None
  | Some (Throw message, provider) =>
      Some (Throw message, set_popup_and_provider None provider this, before)
  | Some (Normal (Some decodedJwt), provider) =>
      Some (Normal tt, set_popup_and_provider None provider this,
            before ++ (if loginSuccessCallback this then [LoginSuccess decodedJwt] else []))
  | Some (Normal None, provider) =>
      Some (Normal tt, set_popup_and_provider None provider this,
            before ++ _surfaceError this "The token was invalid.")
  end.
Proof.
  intros (Ho & Hs & Hd & Hst & Htk) before. subst before.
  unfold _receiveMessage, Oauth_verifyToken.
  rewrite (bool_decide_eq_false_2 (origin event ≠ _)) by (by intros ?).
  rewrite (bool_decide_eq_false_2 (source event ≠ _)) by (by intros ?).
  rewrite Hd. simpl.
  rewrite (bool_decide_eq_false_2 (st = "")), (bool_decide_eq_false_2 (tk = "")) by done.
  simpl.
  destruct (verifyToken _ _ script (discoveryProvider this) tk)
    as [[[[p |] | message] provider] |]; by rewrite <- ?app_assoc.
Qed.

(** X14: the state check does not gate the login.  On a message the
    handler acts on whose state differs from the stored one, the error
    'State mismatch.' is surfaced, and the token is verified all the
    same: if it verifies and a success callback is set, that callback is
    called with the profile right after the error. *)
Theorem X14_receiveMessage_state_mismatch_not_enforced
    (verifyToken_request : string -> Request.RequestParams)
    (first_profile : string -> option UserProfile)
    (script : list World) (this : Oauth) (event : MessageEvent) (stored : option string)
    (st tk : string) (decodedJwt : UserProfile) (provider : DiscoveryProvider) :
  accepted this event st tk ->
  stored ≠ Some st ->
  verifyToken verifyToken_request first_profile script (discoveryProvider this) tk
  = Some (Normal (Some decodedJwt), provider) ->
  loginSuccessCallback this = true ->
  exists before,
    _receiveMessage verifyToken_request first_profile script this event stored
    = Some (Normal tt, set_popup_and_provider None provider this,
            before ++ _surfaceError this "State mismatch." ++ [LoginSuccess decodedJwt]).
Proof.
  intros Hacc Hstored Hverify Hcallback.
  rewrite (_receiveMessage_accepted _ _ _ _ _ _ _ _ Hacc), Hverify, Hcallback.
  rewrite (bool_decide_eq_true_2 (stored ≠ _)) by done.
  exists (_clearPopupCheckInterval this
          ++ match activePopupWindow this with
             | Some popup => if closed popup then [] else [CloseWindow (window_id popup)]
             | None => []
             end).
  by rewrite <- !app_assoc.
Qed.


Lemma X14_witness :
  exists before,
    _receiveMessage Scenarios.verifyToken_request Scenarios.first_profile
      [Scenarios.answers_from None Scenarios.healthy]
      (Scenarios.waiting Examples.fresh)
      (Scenarios.popup_message "forged" "jwt") (Some "expected")
    = Some (Normal tt,
            set_popup_and_provider None
              (_makeRequest_body (Scenarios.answers_from None Scenarios.healthy)
                 Examples.fresh (Scenarios.verifyToken_request "jwt") true 0).1.2
              (Scenarios.waiting Examples.fresh),
            before
            ++ _surfaceError (Scenarios.waiting Examples.fresh) "State mismatch."
            ++ [LoginSuccess Scenarios.profile]).
Proof.
  apply (X14_receiveMessage_state_mismatch_not_enforced Scenarios.verifyToken_request
           Scenarios.first_profile [Scenarios.answers_from None Scenarios.healthy]
           (Scenarios.waiting Examples.fresh) (Scenarios.popup_message "forged" "jwt")
           (Some "expected") "forged" "jwt" Scenarios.profile).
  - repeat split; discriminate.
  - discriminate.
  - vm_compute. reflexivity.
  - reflexivity.
Defined.

(** X15: when the discovery client has no endpoint, a login message the
    handler acts on ends in the error 'The token was invalid.': the
    verification request is never sent, [verifyToken] answers [false],
    the success callback is not called, and the handler itself does not
    reject. *)
Theorem X15_receiveMessage_without_endpoint_reports_invalid_token
    (verifyToken_request : string -> Request.RequestParams)
    (first_profile : string -> option UserProfile)
    (w : World) (script : list World) (this : Oauth) (event : MessageEvent)
    (stored : option string) (st tk : string) :
  accepted this event st tk ->
  Js.truthy_string (discoveryProviderEndpoint (discoveryProvider this)) = false ->
  0 <= selectionRequestRetries (discoveryProvider this) ->
  exists effects,
    _receiveMessage verifyToken_request first_profile (w :: script) this event stored
    = Some (Normal tt, set_popup_and_provider None (discoveryProvider this) this, effects) /\
    last effects = Some (if loginErrorCallback this
                         then LoginError "The token was invalid."
                         else ConsoleError "The token was invalid.") /\
    forall decodedJwt, LoginSuccess decodedJwt ∉ effects.
Proof.
  intros Hacc Hunset Hbudget.
  rewrite (_receiveMessage_accepted _ _ _ _ _ _ _ _ Hacc).
  unfold verifyToken. rewrite request_unset_endpoint by done.
  eexists. split; [reflexivity |]. split.
  - rewrite last_app. unfold _surfaceError. by destruct (loginErrorCallback this).
  - intros decodedJwt.
    unfold _clearPopupCheckInterval, _surfaceError.
    destruct (popupCheckInterval this) as [timer |]; [case_bool_decide |];
      (destruct (activePopupWindow this) as [[id [|]] |]);
      destruct (bool_decide (stored ≠ Some st)), (loginErrorCallback this);
      simpl; intros Hin;
      repeat (apply elem_of_cons in Hin as [Hin | Hin]; [discriminate |]);
      by apply elem_of_nil in Hin.
Qed.

Lemma X15_witness :
  exists effects,
    _receiveMessage Scenarios.verifyToken_request Scenarios.first_profile
      [Scenarios.answers_from None Scenarios.healthy]
      (Scenarios.waiting (constructor 15 3000 None None None None Js.TUndefined None))
      (Scenarios.popup_message "expected" "jwt") (Some "expected")
    = Some (Normal tt,
            set_popup_and_provider None
              (constructor 15 3000 None None None None Js.TUndefined None)
              (Scenarios.waiting (constructor 15 3000 None None None None Js.TUndefined None)),
            effects) /\
    last effects = Some (LoginError "The token was invalid.") /\
    forall decodedJwt, LoginSuccess decodedJwt ∉ effects.
Proof.
  apply (X15_receiveMessage_without_endpoint_reports_invalid_token
           Scenarios.verifyToken_request Scenarios.first_profile
           (Scenarios.answers_from None Scenarios.healthy) []
           (Scenarios.waiting (constructor 15 3000 None None None None Js.TUndefined None))
           (Scenarios.popup_message "expected" "jwt") (Some "expected") "expected" "jwt").
  - repeat split; discriminate.
  - reflexivity.
  - vm_compute. discriminate.
Defined.

(** X16: a message the handler acts on releases the popup.  However the
    verification ends, the instance no longer refers to a popup
    afterwards; a popup that was still open has been closed, a running
    check interval has been cleared first of all, and the interval field
    itself keeps its value. *)
Theorem X16_receiveMessage_releases_popup
    (verifyToken_request : string -> Request.RequestParams)
    (first_profile : string -> option UserProfile)
    (script : list World) (this this' : Oauth) (event : MessageEvent)
    (stored : option string) (st tk : string)
    (completion : Completion unit) (effects : list Effect) :
  accepted this event st tk ->
  _receiveMessage verifyToken_request first_profile script this event stored
  = Some (completion, this', effects) ->
  activePopupWindow this' = None /\
  popupCheckInterval this' = popupCheckInterval this /\
  (forall popup, activePopupWindow this = Some popup -> closed popup = false ->
                 CloseWindow (window_id popup) ∈ effects) /\
  (forall timer, popupCheckInterval this = Some timer -> timer ≠ 0%nat ->
                 head effects = Some (ClearInterval timer)).
Proof.
  intros Hacc. rewrite (_receiveMessage_accepted _ _ _ _ _ _ _ _ Hacc).
  intros Hrun.
  assert (Hshape : exists provider tail,
            this' = set_popup_and_provider None provider this /\
            effects = _clearPopupCheckInterval this
                      ++ match activePopupWindow this with
                         | Some popup =>
                             if closed popup then [] else [CloseWindow (window_id popup)]
                         | None => []
                         end ++ tail).
  { destruct (verifyToken _ _ script (discoveryProvider this) tk)
      as [[[[p |] | message] provider] |]; [| | | done];
      injection Hrun as _ <- <-; eexists provider, _;
      (split; [reflexivity |]); rewrite <- ?app_assoc; reflexivity. }
  destruct Hshape as (provider & tail & -> & ->).
  split; [done |]. split; [done |]. split.
  - intros popup -> ->. set_solver.
  - intros timer Htimer Hnz. unfold _clearPopupCheckInterval.
    rewrite Htimer. by rewrite bool_decide_eq_true_2.
Qed.

Lemma X16_witness :
  activePopupWindow
    (set_popup_and_provider None
       (_makeRequest_body (Scenarios.answers_from None Scenarios.healthy)
          Examples.fresh (Scenarios.verifyToken_request "jwt") true 0).1.2
       (Scenarios.waiting Examples.fresh)) = None.
Proof.
  refine (proj1 (X16_receiveMessage_releases_popup Scenarios.verifyToken_request
                   Scenarios.first_profile [Scenarios.answers_from None Scenarios.healthy]
                   (Scenarios.waiting Examples.fresh) _
                   (Scenarios.popup_message "expected" "jwt") (Some "expected")
                   "expected" "jwt" (Normal tt)
                   [ClearInterval 3; CloseWindow 7; LoginSuccess Scenarios.profile] _ _)).
  - repeat split; discriminate.
  - vm_compute. reflexivity.
Defined.

(** X17: a token no node knows verifies as [false].  When the
    verification request is answered with not-found every time, while
    reselection keeps finding endpoints, [verifyToken] answers [false]
    after [maxRequestsForTrue404] requests instead of rejecting, and
    [request404Count] is back at zero. *)
Theorem X17_verifyToken_not_found_is_false
    (verifyToken_request : string -> Request.RequestParams)
    (first_profile : string -> option UserProfile)
    (script : list World) (this : DiscoveryProvider) (tk : string) :
  request404Count this = 0 ->
  0 < maxRequestsForTrue404 this ->
  0 <= selectionRequestRetries this ->
  Js.truthy_string (discoveryProviderEndpoint this) = true ->
  (Z.to_nat (maxRequestsForTrue404 this) <= length script)%nat ->
  Forall (fun w => answers_not_found w /\ reselectable w) script ->
  exists this' new,
    verifyToken verifyToken_request first_profile script this tk
    = Some (Normal None, this') /\
    request404Count this' = 0 /\
    calls this' = calls this ++ new /\
    count_events is_request new = maxRequestsForTrue404 this.
Proof.
  intros Hzero Hmax Hbudget Hep Hlen Hall.
  destruct (_makeRequest_not_found_run script this (verifyToken_request tk) 0)
    as (this' & requestObj' & new & Hrun & Hreset & Hcalls & _ & Hreq & _);
    [lia | done | by rewrite Hzero, Z.sub_0_r | done |].
  exists this', new. unfold verifyToken. rewrite Hrun.
  rewrite Hzero, Z.sub_0_r in Hreq. by repeat split.
Qed.

Lemma X17_witness :
  exists this' new,
    verifyToken Scenarios.verifyToken_request Scenarios.first_profile
      [Examples.not_found (Some "https://dn2.example");
       Examples.not_found (Some "https://dn3.example")]
      Examples.fresh "jwt"
    = Some (Normal None, this') /\
    request404Count this' = 0 /\
    calls this' = calls Examples.fresh ++ new /\
    count_events is_request new = maxRequestsForTrue404 Examples.fresh.
Proof.
  apply (X17_verifyToken_not_found_is_false Scenarios.verifyToken_request
           Scenarios.first_profile
           [Examples.not_found (Some "https://dn2.example");
            Examples.not_found (Some "https://dn3.example")]
           Examples.fresh "jwt").
  - reflexivity.
  - reflexivity.
  - vm_compute. discriminate.
  - reflexivity.
  - vm_compute. lia.
  - repeat constructor.
Defined.
